(** * The shader model vertex renderer of 0 A.D.

    A shallow embedding of [source/renderer/HWLightingModelRenderer.cpp]
    (the [ShaderModelDef] cache entry, the [ShaderModel] instance data and the
    five operations of [ShaderModelVertexRenderer]) together with the integer
    limits of [source/lib/sysdep/os/win/wposix/wposix_types.h].

    Objects that the C++ code reaches through pointers live in explicit
    stores: model definitions (shared through [CModelDefPtr]) in a map from
    addresses to [CModelDef], the per-instance render data allocated with
    [new ShaderModel] in a second map.  An operation is a function from the
    world to a [Result]: it returns, or it stops on a failed [ENSURE], on a
    null dereference or on an out-of-bounds access. *)

From Stdlib Require Import ZArith Lia.
From stdpp Require Import base option list gmap.

Local Open Scope Z_scope.

(** ** Integers of the platform *)

Module Platform.

(** [SIZE_MAX] of wposix_types.h: [0xFFFFFFFF] under [OS_WIN], else
    [0xFFFFFFFFFFFFFFFF]. *)
Definition SIZE_MAX (OS_WIN : bool) : Z :=
  if OS_WIN then 0xFFFFFFFF else 0xFFFFFFFFFFFFFFFF.

(** [uint32_t] is [unsigned int], 32 bits wide. *)
Definition UINT32_MAX : Z := 0xFFFFFFFF.

(** Arithmetic on [size_t] wraps modulo [SIZE_MAX + 1]. *)
Definition size_wrap (OS_WIN : bool) (x : Z) : Z := x mod (SIZE_MAX OS_WIN + 1).

(** Arithmetic on [uint32_t] wraps modulo [2^32]. *)
Definition u32_wrap (x : Z) : Z := x mod (UINT32_MAX + 1).

(** A value that a [size_t] variable can hold. *)
Definition is_size_t (OS_WIN : bool) (x : Z) : Prop := 0 <= x <= SIZE_MAX OS_WIN.

End Platform.

(** ** Backend vocabulary *)

Inductive Format :=
| UNDEFINED
| R16_UINT
| R32G32_SFLOAT
| R32G32B32_SFLOAT
| R32G32B32A32_SFLOAT.

Inductive BufferType := VERTEX | INDEX.

Inductive BufferUsage := DYNAMIC | TRANSFER_DST.

Inductive VertexAttributeStream := POSITION | NORMAL | UV0 | UV1.

Inductive VertexAttributeRate := PER_VERTEX | PER_INSTANCE.

Record SVertexAttributeFormat := {
  stream : VertexAttributeStream;
  sformat : Format;
  soffset : Z;
  sstride : Z;
  rate : VertexAttributeRate;
  bindingSlot : Z
}.

(** A vertex input layout is identified by the attribute list it was
    requested with ([g_Renderer.GetVertexInputLayout]). *)
Definition VertexInputLayout := list SVertexAttributeFormat.

(** One stored entry of a buffer: the bit patterns of its components (two
    floats of a UV pair, three floats of a vector, one index). *)
Definition element := list Z.

(** What reaches the device command context, in order. *)
Inductive Command :=
| SetVertexInputLayout (layout : option VertexInputLayout)
| SetVertexBuffer (slot : Z) (buffer : option nat) (offset : Z)
| SetIndexBuffer (buffer : option nat)
| DrawIndexedInRange (firstIndex indexCount first last : Z)
| UploadBuffer (buffer : nat) (data : list (list element)).

Definition is_upload (c : Command) : bool :=
  match c with UploadBuffer _ _ => true | _ => false end.

(** ** The vertex array collaborator *)

Module VertexArray.

Record Attribute := {
  format : Format;
  offset : Z
}.

(** A default-constructed attribute, as [std::vector::resize] makes them. *)
Definition Attribute_new : Attribute := {| format := UNDEFINED; offset := 0 |}.

Definition set_format (f : Format) (a : Attribute) : Attribute :=
  {| format := f; offset := offset a |}.

Definition set_offset (o : Z) (a : Attribute) : Attribute :=
  {| format := format a; offset := o |}.

(** The device side of an array: the buffer it was given, where the array
    starts in it, the data staged by the last [Upload], whether that data
    still has to be transferred, and whether it was prepared for binding. *)
Record Chunk := {
  vb_buffer : nat;
  vb_index : Z;
  vb_data : list (list element);
  vb_dirty : bool;
  vb_prepared : bool
}.

(** [m_Attributes] holds the addresses given to [AddAttribute]; an address
    is the position of the attribute in its owner's attribute table
    ([m_UVs] for a definition, position and normal for an instance).  The
    backing store keeps one column of [m_NumberOfVertices] entries for each
    attribute, in [AddAttribute] order. *)
Record t := {
  m_Type : BufferType;
  m_Usage : list BufferUsage;
  m_NumberOfVertices : Z;
  m_Attributes : list nat;
  m_Stride : Z;
  m_BackingStore : option (list (list element));
  m_VB : option Chunk
}.

Definition new (ty : BufferType) (usage : list BufferUsage) : t :=
  {| m_Type := ty; m_Usage := usage; m_NumberOfVertices := 0;
     m_Attributes := []; m_Stride := 0; m_BackingStore := None;
     m_VB := None |}.

Definition with_store (s : option (list (list element))) (va : t) : t :=
  {| m_Type := m_Type va; m_Usage := m_Usage va;
     m_NumberOfVertices := m_NumberOfVertices va;
     m_Attributes := m_Attributes va; m_Stride := m_Stride va;
     m_BackingStore := s; m_VB := m_VB va |}.

Definition with_VB (c : option Chunk) (va : t) : t :=
  {| m_Type := m_Type va; m_Usage := m_Usage va;
     m_NumberOfVertices := m_NumberOfVertices va;
     m_Attributes := m_Attributes va; m_Stride := m_Stride va;
     m_BackingStore := m_BackingStore va; m_VB := c |}.

Definition with_Attributes (l : list nat) (va : t) : t :=
  {| m_Type := m_Type va; m_Usage := m_Usage va;
     m_NumberOfVertices := m_NumberOfVertices va;
     m_Attributes := l; m_Stride := m_Stride va;
     m_BackingStore := m_BackingStore va; m_VB := m_VB va |}.

Definition AddAttribute (a : nat) (va : t) : t :=
  with_Attributes (m_Attributes va ++ [a]) va.

Definition SetNumberOfVertices (n : Z) (va : t) : t :=
  {| m_Type := m_Type va; m_Usage := m_Usage va;
     m_NumberOfVertices := n;
     m_Attributes := m_Attributes va; m_Stride := m_Stride va;
     m_BackingStore := m_BackingStore va; m_VB := m_VB va |}.

Definition GetStride (va : t) : Z := m_Stride va.

Definition GetBuffer (va : t) : option nat := vb_buffer <$> m_VB va.

Definition GetOffset (va : t) : Z :=
  match m_VB va with Some c => vb_index c | None => 0 end.

Definition GetAttributeSize (f : Format) : Z :=
  match f with
  | UNDEFINED => 0
  | R16_UINT => 2
  | R32G32_SFLOAT => 8
  | R32G32B32_SFLOAT => 12
  | R32G32B32A32_SFLOAT => 16
  end.

(** Walks the attribute addresses from the one added last to the one added
    first, writing each attribute's offset through its address and growing
    the stride by the attribute's size. *)
Fixpoint assign_offsets (addrs : list nat) (table : list Attribute) (stride : Z)
  : list Attribute * Z :=
  match addrs with
  | [] => (table, stride)
  | a :: rest =>
      match table !! a with
      | Some attr =>
          assign_offsets rest (<[a := set_offset stride attr]> table)
                         (stride + GetAttributeSize (format attr))
      | None => assign_offsets rest table stride
      end
  end.

(** Modelled from the spec: [VertexArray::Layout], of
    renderer/VertexArray.cpp, which is not among the sources.  The spec
    calls it the generic layout algorithm that computes stride and
    offsets, and fixes its outcome on an instance array: with the position
    added first and the normal second, both of 16 bytes, the normal lies at
    offset 0, the position at 16, and the stride is 32.  So the attributes
    are packed without padding, the last one added first.  Layout also
    allocates the CPU backing store, one entry for each vertex and
    attribute.  The offsets are written through the attribute addresses:
    the owner's table goes in and comes back updated. *)
Definition Layout (va : t) (table : list Attribute) : t * list Attribute :=
  let '(table', stride) := assign_offsets (rev (m_Attributes va)) table 0 in
  ({| m_Type := m_Type va; m_Usage := m_Usage va;
      m_NumberOfVertices := m_NumberOfVertices va;
      m_Attributes := m_Attributes va; m_Stride := stride;
      m_BackingStore :=
        Some ((fun _ => replicate (Z.to_nat (m_NumberOfVertices va)) ([] : element))
                <$> m_Attributes va);
      m_VB := m_VB va |},
   table').

(** Modelled from the spec: what a build routine of the collaborator does
    with the iterator of an attribute ([GetIterator] and
    [ModelRenderer::BuildUV], [BuildIndices], [BuildPositionAndNormals],
    none of them among the sources): it populates the attribute's column
    of the backing store, entry [j] with the value for vertex [j]. *)
Definition populate (column : nat) (value : nat -> element) (va : t) : t :=
  with_store (alter (imap (fun j _ => value j)) column <$> m_BackingStore va) va.

Definition FreeBackingStore (va : t) : t := with_store None va.

(** Modelled from the spec: [VertexArray::PrepareForRendering] "prepares
    the buffer for binding"; the data is not touched. *)
Definition PrepareForRendering (va : t) : t :=
  with_VB ((fun c => {| vb_buffer := vb_buffer c; vb_index := vb_index c;
                        vb_data := vb_data c; vb_dirty := vb_dirty c;
                        vb_prepared := true |}) <$> m_VB va) va.

(** Modelled from the spec: [VertexArray::Upload] stages the backing store
    for the device buffer of the array (the glossary's "modification");
    [buffer] is the handle given to an array that has no buffer yet.
    Nothing is staged for an array without backing store. *)
Definition Upload (buffer : nat) (va : t) : t :=
  match m_BackingStore va with
  | Some store =>
      with_VB (Some {| vb_buffer := from_option vb_buffer buffer (m_VB va);
                       vb_index := from_option vb_index 0 (m_VB va);
                       vb_data := store;
                       vb_dirty := true;
                       vb_prepared := from_option vb_prepared false (m_VB va) |}) va
  | None => va
  end.

(** Modelled from the spec: [VertexArray::UploadIfNeeded] is "a deferred
    GPU transfer that only executes once per modification": staged data
    that was not transferred yet is sent to the device, and the array is
    then up to date. *)
Definition UploadIfNeeded (va : t) : t * list Command :=
  match m_VB va with
  | Some c =>
      if vb_dirty c
      then (with_VB (Some {| vb_buffer := vb_buffer c; vb_index := vb_index c;
                             vb_data := vb_data c; vb_dirty := false;
                             vb_prepared := vb_prepared c |}) va,
            [UploadBuffer (vb_buffer c) (vb_data c)])
      else (va, [])
  | None => (va, [])
  end.

End VertexArray.

(** The index array: a vertex array of type [INDEX] that owns its single
    attribute, the index. *)
Module VertexIndexArray.

Record t := {
  base : VertexArray.t;
  m_Attr : VertexArray.Attribute
}.

Definition new (usage : list BufferUsage) : t :=
  {| base := VertexArray.AddAttribute 0%nat (VertexArray.new INDEX usage);
     m_Attr := VertexArray.set_format R16_UINT VertexArray.Attribute_new |}.

Definition with_base (b : VertexArray.t) (ia : t) : t :=
  {| base := b; m_Attr := m_Attr ia |}.

Definition SetNumberOfVertices (n : Z) (ia : t) : t :=
  with_base (VertexArray.SetNumberOfVertices n (base ia)) ia.

Definition Layout (ia : t) : t :=
  let '(b, table) := VertexArray.Layout (base ia) [m_Attr ia] in
  {| base := b; m_Attr := default (m_Attr ia) (table !! 0%nat) |}.

Definition populate (value : nat -> element) (ia : t) : t :=
  with_base (VertexArray.populate 0 value (base ia)) ia.

Definition FreeBackingStore (ia : t) : t :=
  with_base (VertexArray.FreeBackingStore (base ia)) ia.

Definition GetBuffer (ia : t) : option nat := VertexArray.GetBuffer (base ia).

Definition GetOffset (ia : t) : Z := VertexArray.GetOffset (base ia).

End VertexIndexArray.

(** ** The objects of the renderer *)

(** HWLightingModelRenderer.cpp, lines 38 to 40. *)
Definition MODEL_VERTEX_ATTRIBUTE_STRIDE : Z := 32.
Definition MODEL_VERTEX_ATTRIBUTE_POSITION_OFFSET : Z := 16.
Definition MODEL_VERTEX_ATTRIBUTE_NORMAL_OFFSET : Z := 0.

(** [struct ShaderModelDef], lines 44 to 58. *)
Record ShaderModelDef := {
  m_IndexArray : VertexIndexArray.t;
  m_Array : VertexArray.t;
  m_UVs : list VertexArray.Attribute;
  m_VertexInputLayout : option VertexInputLayout
}.

(** A model definition: its three counts, the generation callbacks it
    exposes to the build routines, and the render data cached on it, keyed
    by the identity of the renderer that put it there. *)
Record CModelDef := {
  m_NumVertices : Z;
  m_NumFaces : Z;
  m_NumUVsPerVertex : Z;
  UVCoordinates : nat -> nat -> element;
  FaceIndices : nat -> element;
  m_RenderData : gmap nat ShaderModelDef
}.

Definition GetNumVertices (mdef : CModelDef) : Z := m_NumVertices mdef.
Definition GetNumFaces (mdef : CModelDef) : Z := m_NumFaces mdef.
Definition GetNumUVsPerVertex (mdef : CModelDef) : Z := m_NumUVsPerVertex mdef.

Definition GetRenderData (key : nat) (mdef : CModelDef) : option ShaderModelDef :=
  m_RenderData mdef !! key.

Definition SetRenderData (key : nat) (data : ShaderModelDef) (mdef : CModelDef) : CModelDef :=
  {| m_NumVertices := m_NumVertices mdef; m_NumFaces := m_NumFaces mdef;
     m_NumUVsPerVertex := m_NumUVsPerVertex mdef;
     UVCoordinates := UVCoordinates mdef; FaceIndices := FaceIndices mdef;
     m_RenderData := <[key := data]> (m_RenderData mdef) |}.

(** A model instance: the address of its (shared) definition and the
    position and normal its current pose gives to each vertex. *)
Record CModel := {
  m_pModelDef : nat;
  PositionAndNormal : nat -> element * element
}.

(** [struct ShaderModel], lines 120 to 134; [sm_Array] is its [m_Array] and
    [m_Key] the key kept by [CModelRData]. *)
Record ShaderModel := {
  m_Key : nat;
  sm_Array : VertexArray.t;
  m_Position : VertexArray.Attribute;
  m_Normal : VertexArray.Attribute
}.

Definition ShaderModel_new (key : nat) : ShaderModel :=
  {| m_Key := key;
     sm_Array := VertexArray.new VERTEX [DYNAMIC; TRANSFER_DST];
     m_Position := VertexArray.Attribute_new;
     m_Normal := VertexArray.Attribute_new |}.

Definition with_sm_Array (va : VertexArray.t) (sm : ShaderModel) : ShaderModel :=
  {| m_Key := m_Key sm; sm_Array := va;
     m_Position := m_Position sm; m_Normal := m_Normal sm |}.

(** [ShaderModelRendererInternals], lines 137 to 141: the previously
    prepared definition, null after the renderer's constructor. *)
Record ShaderModelRendererInternals := {
  shadermodeldef : option nat
}.

(** The two counters of [g_Renderer.m_Stats] that RenderModel bumps, both
    [size_t]. *)
Record Stats := {
  m_DrawCalls : Z;
  m_ModelTris : Z
}.

(** ** The world *)

(** [defs]: the model definitions, by address.  [rdata]: the [ShaderModel]
    objects, by address.  [m_addr]: the address of the renderer's internals,
    which is the key of its render data; [m]: their content, where
    [shadermodeldef] is null or the address of the definition whose cache
    entry it points to.  [stats]: [g_Renderer.m_Stats].  [commands]: what
    the device command context received.  [next_buffer]: the next free
    buffer handle.  [constructions]: how many times the constructor of
    [ShaderModelDef] ran. *)
Record World := {
  defs : gmap nat CModelDef;
  rdata : gmap nat ShaderModel;
  m_addr : nat;
  m : ShaderModelRendererInternals;
  stats : Stats;
  commands : list Command;
  next_buffer : nat;
  constructions : nat
}.

Definition with_defs (x : gmap nat CModelDef) (w : World) : World :=
  {| defs := x; rdata := rdata w; m_addr := m_addr w; m := m w; stats := stats w;
     commands := commands w; next_buffer := next_buffer w;
     constructions := constructions w |}.

Definition with_rdata (x : gmap nat ShaderModel) (w : World) : World :=
  {| defs := defs w; rdata := x; m_addr := m_addr w; m := m w; stats := stats w;
     commands := commands w; next_buffer := next_buffer w;
     constructions := constructions w |}.

Definition with_m (x : ShaderModelRendererInternals) (w : World) : World :=
  {| defs := defs w; rdata := rdata w; m_addr := m_addr w; m := x; stats := stats w;
     commands := commands w; next_buffer := next_buffer w;
     constructions := constructions w |}.

Definition with_stats (x : Stats) (w : World) : World :=
  {| defs := defs w; rdata := rdata w; m_addr := m_addr w; m := m w; stats := x;
     commands := commands w; next_buffer := next_buffer w;
     constructions := constructions w |}.

Definition with_commands (x : list Command) (w : World) : World :=
  {| defs := defs w; rdata := rdata w; m_addr := m_addr w; m := m w; stats := stats w;
     commands := x; next_buffer := next_buffer w;
     constructions := constructions w |}.

Definition with_next_buffer (x : nat) (w : World) : World :=
  {| defs := defs w; rdata := rdata w; m_addr := m_addr w; m := m w; stats := stats w;
     commands := commands w; next_buffer := x;
     constructions := constructions w |}.

Definition with_constructions (x : nat) (w : World) : World :=
  {| defs := defs w; rdata := rdata w; m_addr := m_addr w; m := m w; stats := stats w;
     commands := commands w; next_buffer := next_buffer w;
     constructions := x |}.

(** ** Outcomes and the monad of operations *)

Inductive Fault :=
| EnsureFailed
| NullDereference
| DanglingPointer
| OutOfBounds.

Inductive Result (A : Type) :=
| Ok (a : A)
| Stop (f : Fault).

Arguments Ok {A} a.
Arguments Stop {A} f.

Definition M (A : Type) : Type := World -> Result (A * World).

Definition ret {A} (a : A) : M A := fun w => Ok (a, w).

Definition bind {A B} (c : M A) (k : A -> M B) : M B :=
  fun w => match c w with
           | Ok (a, w') => k a w'
           | Stop f => Stop f
           end.

Definition stop {A} (f : Fault) : M A := fun _ => Stop f.

#[global] Instance M_ret : MRet M := fun A a => ret a.
#[global] Instance M_bind : MBind M := fun A B k c => bind c k.

(** [ENSURE(cond)] of lib/debug.h: halts when the condition is false. *)
Definition ENSURE (cond : bool) : M unit :=
  if cond then ret tt else stop EnsureFailed.

Definition modify (f : World -> World) : M unit := fun w => Ok (tt, f w).

Definition gets {A} (f : World -> A) : M A := fun w => Ok (f w, w).

(** The truth value of a pointer: false for null. *)
Definition non_null {A} (p : option A) : bool :=
  match p with Some _ => true | None => false end.

(** Reading through a pointer that may be dangling. *)
Definition deref {A} (o : option A) : M A :=
  match o with Some a => ret a | None => stop DanglingPointer end.

(** [v[i]] on a [std::vector] or a [PS::StaticVector]. *)
Definition at_index {A} (v : list A) (i : nat) : M A :=
  match v !! i with Some a => ret a | None => stop OutOfBounds end.

(** A call on the device command context. *)
Definition emit (cs : list Command) : M unit :=
  modify (fun w => with_commands (commands w ++ cs) w).

(** [model->GetModelDef()], followed through. *)
Definition GetModelDef (model : CModel) : M CModelDef :=
  fun w => deref (defs w !! m_pModelDef model) w.

(** [VertexArray::Upload] in the world: an array without buffer is given
    the next free handle. *)
Definition Upload (va : VertexArray.t) : M VertexArray.t :=
  fun w =>
    let va' := VertexArray.Upload (next_buffer w) va in
    match VertexArray.m_VB va, VertexArray.m_VB va' with
    | None, Some _ => Ok (va', with_next_buffer (S (next_buffer w)) w)
    | _, _ => Ok (va', w)
    end.

Definition UploadIfNeeded (va : VertexArray.t) : M VertexArray.t :=
  let '(va', cs) := VertexArray.UploadIfNeeded va in
  emit cs;; ret va'.

(** The same two calls on an index array. *)
Definition Upload_indices (ia : VertexIndexArray.t) : M VertexIndexArray.t :=
  b ← Upload (VertexIndexArray.base ia);
  mret (VertexIndexArray.with_base b ia).

Definition UploadIfNeeded_indices (ia : VertexIndexArray.t) : M VertexIndexArray.t :=
  b ← UploadIfNeeded (VertexIndexArray.base ia);
  mret (VertexIndexArray.with_base b ia).

(** [for (size_t i = 0; i < count; ++i) body(i)] *)
Definition for_loop {S} (count : nat) (body : nat -> S -> S) (s : S) : S :=
  foldl (fun acc i => body i acc) s (seq 0 count).

(** Reading and writing the [ShaderModel] behind a [CModelRData*]. *)
Definition load (data : nat) : M ShaderModel :=
  fun w => deref (rdata w !! data) w.

Definition store (data : nat) (sm : ShaderModel) : M unit :=
  modify (fun w => with_rdata (<[data := sm]> (rdata w)) w).

(** The addresses of the two attributes of a [ShaderModel] in its table. *)
Definition addr_Position : nat := 0.
Definition addr_Normal : nat := 1.

(** [shadermodel->m_Array.Layout()]: the offsets go to [m_Position] and
    [m_Normal], whose addresses the array holds. *)
Definition ShaderModel_Layout (sm : ShaderModel) : ShaderModel :=
  let '(va, table) := VertexArray.Layout (sm_Array sm) [m_Position sm; m_Normal sm] in
  {| m_Key := m_Key sm; sm_Array := va;
     m_Position := default (m_Position sm) (table !! addr_Position);
     m_Normal := default (m_Normal sm) (table !! addr_Normal) |}.

(** ** The renderer *)

Section Renderer.

(** The platform switch of wposix_types.h, and the flag of
    graphics/RenderableObject.h that the sources do not contain. *)
Variable OS_WIN : bool.
Variable RENDERDATA_UPDATE_VERTICES : Z.

Abbreviation size_wrap := (Platform.size_wrap OS_WIN).
Abbreviation u32_wrap := Platform.u32_wrap.

(** [ShaderModelDef::ShaderModelDef], lines 61 to 117.  The first step
    counts the construction. *)
Definition ShaderModelDef_new (mdef : CModelDef) : M ShaderModelDef :=
  modify (fun w => with_constructions (S (constructions w)) w);;
  let m_IndexArray := VertexIndexArray.new [TRANSFER_DST] in
  let m_Array := VertexArray.new VERTEX [TRANSFER_DST] in
  let numVertices := GetNumVertices mdef in
  let numUVs := Z.to_nat (GetNumUVsPerVertex mdef) in
  let m_UVs := replicate numUVs VertexArray.Attribute_new in
  let '(m_UVs, m_Array) :=
    for_loop numUVs
      (fun i '(uvs, va) =>
         (alter (VertexArray.set_format R32G32_SFLOAT) i uvs,
          VertexArray.AddAttribute i va))
      (m_UVs, m_Array) in
  let m_Array := VertexArray.SetNumberOfVertices numVertices m_Array in
  let '(m_Array, m_UVs) := VertexArray.Layout m_Array m_UVs in
  let m_Array :=
    for_loop numUVs
      (fun i va => VertexArray.populate i (UVCoordinates mdef i) va) m_Array in
  m_Array ← Upload m_Array;
  let m_Array := VertexArray.FreeBackingStore m_Array in
  let m_IndexArray :=
    VertexIndexArray.SetNumberOfVertices (size_wrap (GetNumFaces mdef * 3)) m_IndexArray in
  let m_IndexArray := VertexIndexArray.Layout m_IndexArray in
  let m_IndexArray := VertexIndexArray.populate (FaceIndices mdef) m_IndexArray in
  m_IndexArray ← Upload_indices m_IndexArray;
  let m_IndexArray := VertexIndexArray.FreeBackingStore m_IndexArray in
  let stride := u32_wrap (VertexArray.GetStride m_Array) in
  uv0 ← at_index m_UVs 0;
  let attributes :=
    [ {| stream := UV0; sformat := VertexArray.format uv0;
         soffset := VertexArray.offset uv0; sstride := stride;
         rate := PER_VERTEX; bindingSlot := 0 |};
      {| stream := POSITION; sformat := R32G32B32_SFLOAT;
         soffset := MODEL_VERTEX_ATTRIBUTE_POSITION_OFFSET;
         sstride := MODEL_VERTEX_ATTRIBUTE_STRIDE;
         rate := PER_VERTEX; bindingSlot := 1 |};
      {| stream := NORMAL; sformat := R32G32B32_SFLOAT;
         soffset := MODEL_VERTEX_ATTRIBUTE_NORMAL_OFFSET;
         sstride := MODEL_VERTEX_ATTRIBUTE_STRIDE;
         rate := PER_VERTEX; bindingSlot := 1 |} ] in
  attributes ←
    (if 2 <=? GetNumUVsPerVertex mdef
     then uv1 ← at_index m_UVs 1;
          mret (attributes ++
                [ {| stream := UV1; sformat := VertexArray.format uv1;
                     soffset := VertexArray.offset uv1; sstride := stride;
                     rate := PER_VERTEX; bindingSlot := 0 |} ])
     else mret attributes);
  mret {| m_IndexArray := m_IndexArray; m_Array := m_Array; m_UVs := m_UVs;
          m_VertexInputLayout := Some attributes |}.

(** The six assertions of [CreateModelData], lines 184 to 193. *)
Definition verify_layout (shadermodel : ShaderModel) : M unit :=
  ENSURE (VertexArray.offset (m_Position shadermodel) mod 16 =? 0);;
  ENSURE (VertexArray.offset (m_Normal shadermodel) mod 16 =? 0);;
  ENSURE (VertexArray.GetStride (sm_Array shadermodel) mod 16 =? 0);;
  ENSURE (VertexArray.GetStride (sm_Array shadermodel) =? MODEL_VERTEX_ATTRIBUTE_STRIDE);;
  ENSURE (VertexArray.offset (m_Position shadermodel) =? MODEL_VERTEX_ATTRIBUTE_POSITION_OFFSET);;
  ENSURE (VertexArray.offset (m_Normal shadermodel) =? MODEL_VERTEX_ATTRIBUTE_NORMAL_OFFSET).

(** The instance data as [CreateModelData] builds it, lines 170 to 181. *)
Definition build_ShaderModel (key : nat) (mdef : CModelDef) : ShaderModel :=
  let shadermodel := ShaderModel_new key in
  let shadermodel :=
    {| m_Key := m_Key shadermodel;
       sm_Array := VertexArray.AddAttribute addr_Position (sm_Array shadermodel);
       m_Position := VertexArray.set_format R32G32B32A32_SFLOAT (m_Position shadermodel);
       m_Normal := m_Normal shadermodel |} in
  let shadermodel :=
    {| m_Key := m_Key shadermodel;
       sm_Array := VertexArray.AddAttribute addr_Normal (sm_Array shadermodel);
       m_Position := m_Position shadermodel;
       m_Normal := VertexArray.set_format R32G32B32A32_SFLOAT (m_Normal shadermodel) |} in
  let shadermodel :=
    with_sm_Array
      (VertexArray.SetNumberOfVertices (GetNumVertices mdef) (sm_Array shadermodel))
      shadermodel in
  ShaderModel_Layout shadermodel.

(** [ShaderModelVertexRenderer::CreateModelData], lines 158 to 196.  The
    result is the address of the new [ShaderModel]. *)
Definition CreateModelData (key : nat) (model : CModel) : M nat :=
  mdef ← GetModelDef model;
  this_m ← gets m_addr;
  match GetRenderData this_m mdef with
  | None =>
      shadermodeldef ← ShaderModelDef_new mdef;
      modify (fun w =>
        with_defs (alter (SetRenderData this_m shadermodeldef) (m_pModelDef model) (defs w)) w)
  | Some _ => mret tt
  end;;
  data ← gets (fun w => fresh (dom (rdata w)));
  let shadermodel := build_ShaderModel key mdef in
  verify_layout shadermodel;;
  store data shadermodel;;
  mret data.

(** [ShaderModelVertexRenderer::UpdateModelData], lines 200 to 217. *)
Definition UpdateModelData (model : CModel) (data : nat) (updateflags : Z) : M unit :=
  shadermodel ← load data;
  shadermodel ←
    (if negb (Z.land updateflags RENDERDATA_UPDATE_VERTICES =? 0)
     then
       let va := VertexArray.populate addr_Position (fun j => fst (PositionAndNormal model j))
                   (sm_Array shadermodel) in
       let va := VertexArray.populate addr_Normal (fun j => snd (PositionAndNormal model j)) va in
       va ← Upload va;
       mret (with_sm_Array va shadermodel)
     else mret shadermodel);
  store data
    (with_sm_Array (VertexArray.PrepareForRendering (sm_Array shadermodel)) shadermodel).

(** Writing the two arrays of the [ShaderModelDef] that the definition at
    [def] caches under [key]: the cache entry is updated in place. *)
Definition store_arrays (def key : nat) (ia : VertexIndexArray.t) (va : VertexArray.t)
  : M unit :=
  modify (fun w =>
    with_defs
      (alter (fun mdef =>
                match GetRenderData key mdef with
                | Some d =>
                    SetRenderData key
                      {| m_IndexArray := ia; m_Array := va; m_UVs := m_UVs d;
                         m_VertexInputLayout := m_VertexInputLayout d |} mdef
                | None => mdef
                end) def (defs w)) w).

(** [ShaderModelVertexRenderer::UploadModelData], lines 219 to 232. *)
Definition UploadModelData (model : CModel) (data : nat) : M unit :=
  mdef ← GetModelDef model;
  this_m ← gets m_addr;
  let shaderModelDef := GetRenderData this_m mdef in
  ENSURE (non_null shaderModelDef);;
  shaderModelDef ← deref shaderModelDef;
  va ← UploadIfNeeded (m_Array shaderModelDef);
  ia ← UploadIfNeeded_indices (m_IndexArray shaderModelDef);
  store_arrays (m_pModelDef model) this_m ia va;;
  shaderModel ← load data;
  va ← UploadIfNeeded (sm_Array shaderModel);
  store data (with_sm_Array va shaderModel).

(** [m->shadermodeldef->...]: null stops, otherwise the pointer leads to
    the cache entry of the definition it was taken from. *)
Definition prepared_def : M ShaderModelDef :=
  p ← gets (fun w => shadermodeldef (m w));
  match p with
  | None => stop NullDereference
  | Some d =>
      this_m ← gets m_addr;
      mdef ← (fun w => deref (defs w !! d) w);
      deref (GetRenderData this_m mdef)
  end.

(** [ShaderModelVertexRenderer::PrepareModelDef], lines 235 to 250; [def]
    is the address of the definition the reference denotes. *)
Definition PrepareModelDef (def : nat) : M unit :=
  mdef ← (fun w => deref (defs w !! def) w);
  this_m ← gets m_addr;
  modify (with_m {| shadermodeldef :=
                      match GetRenderData this_m mdef with
                      | Some _ => Some def
                      | None => None
                      end |});;
  p ← gets (fun w => shadermodeldef (m w));
  ENSURE (non_null p);;
  d ← prepared_def;
  emit [SetVertexInputLayout (m_VertexInputLayout d)];;
  let stride := u32_wrap (VertexArray.GetStride (m_Array d)) in
  let firstVertexOffset := u32_wrap (VertexArray.GetOffset (m_Array d) * stride) in
  emit [SetVertexBuffer 0 (VertexArray.GetBuffer (m_Array d)) firstVertexOffset].

(** [ShaderModelVertexRenderer::RenderModel], lines 253 to 276. *)
Definition RenderModel (model : CModel) (data : nat) : M unit :=
  mdldef ← GetModelDef model;
  shadermodel ← load data;
  let stride := u32_wrap (VertexArray.GetStride (sm_Array shadermodel)) in
  let firstVertexOffset := u32_wrap (VertexArray.GetOffset (sm_Array shadermodel) * stride) in
  emit [SetVertexBuffer 1 (VertexArray.GetBuffer (sm_Array shadermodel)) firstVertexOffset];;
  d ← prepared_def;
  emit [SetIndexBuffer (VertexIndexArray.GetBuffer (m_IndexArray d))];;
  let numberOfFaces := GetNumFaces mdldef in
  emit [DrawIndexedInRange (VertexIndexArray.GetOffset (m_IndexArray d))
          (size_wrap (numberOfFaces * 3)) 0 (size_wrap (GetNumVertices mdldef - 1))];;
  modify (fun w =>
    with_stats {| m_DrawCalls := size_wrap (m_DrawCalls (stats w) + 1);
                  m_ModelTris := m_ModelTris (stats w) |} w);;
  modify (fun w =>
    with_stats {| m_DrawCalls := m_DrawCalls (stats w);
                  m_ModelTris := size_wrap (m_ModelTris (stats w) + numberOfFaces) |} w).

End Renderer.

(** ** Vocabulary of the statements *)

(** A UV attribute after the first loop of the constructor. *)
Definition uv_attribute : VertexArray.Attribute :=
  VertexArray.set_format R32G32_SFLOAT VertexArray.Attribute_new.

(** What [populate] leaves alone in an array: everything but the content of
    the columns. *)
Definition outline (va : VertexArray.t) :=
  (VertexArray.m_Type va, VertexArray.m_Usage va, VertexArray.m_NumberOfVertices va,
   VertexArray.m_Attributes va, VertexArray.m_Stride va, VertexArray.m_VB va,
   fmap (M := list) length <$> VertexArray.m_BackingStore va).

(** The world after one construction of a [ShaderModelDef]: two buffers were
    handed out and the construction counter moved. *)
Definition after_construction (w : World) : World :=
  with_next_buffer (S (S (next_buffer w))) (with_constructions (S (constructions w)) w).

(** The fields of an array but for the pending-transfer mark of its chunk:
    size, attribute list, stride, CPU content, buffer and staged content. *)
Definition array_fields (va : VertexArray.t) :=
  (VertexArray.m_Type va, VertexArray.m_Usage va, VertexArray.m_NumberOfVertices va,
   VertexArray.m_Attributes va, VertexArray.m_Stride va, VertexArray.m_BackingStore va,
   (fun c => (VertexArray.vb_buffer c, VertexArray.vb_index c, VertexArray.vb_data c,
              VertexArray.vb_prepared c)) <$> VertexArray.m_VB va).

Definition def_fields (d : ShaderModelDef) :=
  (array_fields (VertexIndexArray.base (m_IndexArray d)),
   VertexIndexArray.m_Attr (m_IndexArray d),
   array_fields (m_Array d), m_UVs d, m_VertexInputLayout d).

(** The fields of the [ShaderModelDef] that the definition at [def] caches
    under [key], if there is one. *)
Definition cached_fields (w : World) (def key : nat) :=
  def_fields <$> (defs w !! def ≫= GetRenderData key).

(** What one UploadIfNeeded may send: nothing, or a single transfer. *)
Definition uploads_at_most_once (cs : list Command) : Prop :=
  (length cs ≤ 1)%nat ∧ Forall (fun c => is_upload c = true) cs.

(** The cache entry [d] once its two arrays went through UploadIfNeeded. *)
Definition uploaded_def (d : ShaderModelDef) : ShaderModelDef :=
  {| m_IndexArray :=
       VertexIndexArray.with_base
         (VertexArray.UploadIfNeeded (VertexIndexArray.base (m_IndexArray d))).1
         (m_IndexArray d);
     m_Array := (VertexArray.UploadIfNeeded (m_Array d)).1;
     m_UVs := m_UVs d;
     m_VertexInputLayout := m_VertexInputLayout d |}.

(** The world after UploadModelData, given what its pointers lead to: the
    definition [mdef] of the model, the cache entry [d] and the instance
    data [shadermodel]. *)
Definition uploaded (w : World) (model : CModel) (data : nat)
    (mdef : CModelDef) (d : ShaderModelDef) (shadermodel : ShaderModel) : World :=
  with_rdata
    (<[data := with_sm_Array (VertexArray.UploadIfNeeded (sm_Array shadermodel)).1
                 shadermodel]> (rdata w))
    (with_commands
       (commands w
        ++ (VertexArray.UploadIfNeeded (m_Array d)).2
        ++ (VertexArray.UploadIfNeeded (VertexIndexArray.base (m_IndexArray d))).2
        ++ (VertexArray.UploadIfNeeded (sm_Array shadermodel)).2)
       (with_defs
          (<[m_pModelDef model := SetRenderData (m_addr w) (uploaded_def d) mdef]> (defs w))
          w)).

(** ** A concrete scene

    One definition at address 7: a quad of 4 vertices and 2 faces with one UV
    channel; a second one at address 8 without vertices.  The renderer's
    internals are at address 1 and nothing was prepared yet. *)
Module Scene.

Definition quad : CModelDef :=
  {| m_NumVertices := 4; m_NumFaces := 2; m_NumUVsPerVertex := 1;
     UVCoordinates := fun channel j => [Z.of_nat channel; Z.of_nat j];
     FaceIndices := fun k => [Z.of_nat (k mod 4)];
     m_RenderData := ∅ |}.

Definition hollow : CModelDef :=
  {| m_NumVertices := 0; m_NumFaces := 2; m_NumUVsPerVertex := 1;
     UVCoordinates := fun channel j => [Z.of_nat channel; Z.of_nat j];
     FaceIndices := fun k => [0];
     m_RenderData := ∅ |}.

Definition flat : CModelDef :=
  {| m_NumVertices := 4; m_NumFaces := 2; m_NumUVsPerVertex := 0;
     UVCoordinates := fun channel j => [];
     FaceIndices := fun k => [Z.of_nat (k mod 4)];
     m_RenderData := ∅ |}.

Definition world : World :=
  {| defs := {[ 7%nat := quad; 8%nat := hollow ]};
     rdata := ∅;
     m_addr := 1;
     m := {| shadermodeldef := None |};
     stats := {| m_DrawCalls := 0; m_ModelTris := 0 |};
     commands := [];
     next_buffer := 0;
     constructions := 0 |}.

Definition model (def : nat) : CModel :=
  {| m_pModelDef := def;
     PositionAndNormal := fun j => ([Z.of_nat j; 0; 0], [0; 0; 1]) |}.

(** The value of [RENDERDATA_UPDATE_VERTICES] used in the scene. *)
Definition VERTICES : Z := 2.

(** The world an operation leaves. *)
Definition world_after {A} (op : M A) (w : World) : World :=
  match op w with
  | Ok (_, w') => w'
  | Stop _ => w
  end.

(** The stages of one instance of the definition at [def]: created (its
    data is at address 0), updated with the vertices flag, uploaded,
    prepared. *)
Definition created_world (OS_WIN : bool) (def : nat) : World :=
  world_after (CreateModelData OS_WIN 42 (model def)) world.

Definition updated_world (OS_WIN : bool) (def : nat) : World :=
  world_after (UpdateModelData VERTICES (model def) 0 VERTICES) (created_world OS_WIN def).

Definition uploaded_world (OS_WIN : bool) (def : nat) : World :=
  world_after (UploadModelData (model def) 0) (updated_world OS_WIN def).

Definition prepared_world (OS_WIN : bool) (def : nat) : World :=
  world_after (PrepareModelDef def) (uploaded_world OS_WIN def).

(** The fault, if any, on the way to the prepared world. *)
Definition prepare_stops (OS_WIN : bool) (def : nat) : option Fault :=
  match
    (data ← CreateModelData OS_WIN 42 (model def);
     UpdateModelData VERTICES (model def) data VERTICES;;
     UploadModelData (model def) data;;
     PrepareModelDef def) world
  with
  | Ok _ => None
  | Stop f => Some f
  end.

End Scene.

(** ** Further vocabulary *)

(** The limits that wposix_types.h defines beside [SIZE_MAX], and the values
    that fit the integer types it declares: [int16_t] is [short],
    [uint16_t] is [unsigned short], both 16 bits wide. *)
Module Wposix.

Definition INT16_MIN : Z := -32768.
Definition INT16_MAX : Z := 32767.
Definition UINT16_MIN : Z := 0.
Definition UINT16_MAX : Z := 65536.
Definition PATH_MAX : Z := 256.

Definition is_int16_t (x : Z) : Prop := - 2 ^ 15 <= x < 2 ^ 15.
Definition is_uint16_t (x : Z) : Prop := 0 <= x < 2 ^ 16.

(** Conversion to [uint16_t]. *)
Definition to_uint16_t (x : Z) : Z := x mod 2 ^ 16.

End Wposix.

(** The two entries of the vertex input layout that the constructor writes
    from the constants alone, lines 98 to 105. *)
Definition layout_POSITION : SVertexAttributeFormat :=
  {| stream := POSITION; sformat := R32G32B32_SFLOAT;
     soffset := MODEL_VERTEX_ATTRIBUTE_POSITION_OFFSET;
     sstride := MODEL_VERTEX_ATTRIBUTE_STRIDE;
     rate := PER_VERTEX; bindingSlot := 1 |}.

Definition layout_NORMAL : SVertexAttributeFormat :=
  {| stream := NORMAL; sformat := R32G32B32_SFLOAT;
     soffset := MODEL_VERTEX_ATTRIBUTE_NORMAL_OFFSET;
     sstride := MODEL_VERTEX_ATTRIBUTE_STRIDE;
     rate := PER_VERTEX; bindingSlot := 1 |}.

(** An entry for a UV attribute of the static array, lines 95 to 97 and 110
    to 113. *)
Definition layout_UV (s : VertexAttributeStream) (uv : VertexArray.Attribute) (stride : Z)
  : SVertexAttributeFormat :=
  {| stream := s; sformat := VertexArray.format uv; soffset := VertexArray.offset uv;
     sstride := stride; rate := PER_VERTEX; bindingSlot := 0 |}.

(** Whether staged data of an array still waits for its transfer. *)
Definition is_pending (va : VertexArray.t) : bool :=
  match VertexArray.m_VB va with
  | Some c => VertexArray.vb_dirty c
  | None => false
  end.

(** What the assertions of CreateModelData validated on an instance, and
    what goes with it: key, the two attributes, and type, usage, size,
    attribute list and stride of the dynamic array. *)
Definition instance_layout (sm : ShaderModel) :=
  (m_Key sm, m_Position sm, m_Normal sm,
   VertexArray.m_Type (sm_Array sm), VertexArray.m_Usage (sm_Array sm),
   VertexArray.m_NumberOfVertices (sm_Array sm),
   VertexArray.m_Attributes (sm_Array sm), VertexArray.m_Stride (sm_Array sm)).

(** The three counts of a definition. *)
Definition counts (mdef : CModelDef) : Z * Z * Z :=
  (GetNumVertices mdef, GetNumFaces mdef, GetNumUVsPerVertex mdef).

(** The five operations on one instance in the order of a frame: create,
    update, upload, prepare the definition of the model, render. *)
Definition frame (OS_WIN : bool) (R : Z) (key : nat) (model : CModel) (updateflags : Z)
  : M nat :=
  data ← CreateModelData OS_WIN key model;
  UpdateModelData R model data updateflags;;
  UploadModelData model data;;
  PrepareModelDef (m_pModelDef model);;
  RenderModel OS_WIN model data;;
  mret data.

(** A second scene: a definition with two UV channels at address 9, and the
    quad of the first scene cached by another renderer, whose internals are
    at address 2. *)
Module Stage.

Definition tile : CModelDef :=
  {| m_NumVertices := 3; m_NumFaces := 1; m_NumUVsPerVertex := 2;
     UVCoordinates := fun channel j => [Z.of_nat channel; Z.of_nat j];
     FaceIndices := fun k => [Z.of_nat k];
     m_RenderData := ∅ |}.

Definition world : World :=
  {| defs := {[ 7%nat := Scene.quad; 9%nat := tile ]};
     rdata := ∅;
     m_addr := 1;
     m := {| shadermodeldef := None |};
     stats := {| m_DrawCalls := 0; m_ModelTris := 0 |};
     commands := [];
     next_buffer := 0;
     constructions := 0 |}.

(** Two instances of the quad, at addresses 0 and 1, updated and uploaded,
    and the quad prepared. *)
Definition two_instances : World :=
  Scene.world_after
    (d1 ← CreateModelData false 42 (Scene.model 7);
     d2 ← CreateModelData false 43 (Scene.model 7);
     UpdateModelData Scene.VERTICES (Scene.model 7) d1 Scene.VERTICES;;
     UpdateModelData Scene.VERTICES (Scene.model 7) d2 Scene.VERTICES;;
     UploadModelData (Scene.model 7) d1;;
     UploadModelData (Scene.model 7) d2;;
     PrepareModelDef 7)
    world.

End Stage.

(** ** Running an operation *)

Ltac run :=
  unfold Upload_indices, UploadIfNeeded_indices, mbind, M_bind, bind, mret, M_ret, ret,
    gets, emit, store, load, modify, GetModelDef, ENSURE, deref, stop;
  simpl.

Ltac run_in H :=
  unfold Upload_indices, UploadIfNeeded_indices, mbind, M_bind, bind, mret, M_ret, ret,
    gets, emit, store, load, modify, GetModelDef, ENSURE, deref, stop in H;
  simpl in H.

(** ** The loops and the layout of the constructor *)

Lemma for_loop_S {S} (n : nat) (body : nat -> S -> S) (s : S) :
  for_loop (Datatypes.S n) body s = body n (for_loop n body s).
Proof. unfold for_loop. rewrite seq_S, foldl_app. reflexivity. Qed.

Lemma add_uv_attributes (n k : nat) (va : VertexArray.t) :
  (k ≤ n)%nat →
  for_loop k
    (fun i '(uvs, va) =>
       (alter (VertexArray.set_format R32G32_SFLOAT) i uvs, VertexArray.AddAttribute i va))
    (replicate n VertexArray.Attribute_new, va)
  = (replicate k uv_attribute ++ replicate (n - k) VertexArray.Attribute_new,
     VertexArray.with_Attributes (VertexArray.m_Attributes va ++ seq 0 k) va).
Proof.
  induction k as [|k IH]; intros Hk.
  - unfold for_loop. simpl. rewrite Nat.sub_0_r, app_nil_r. by destruct va.
  - rewrite for_loop_S, IH by lia. f_equal.
    + replace (n - k)%nat with (Datatypes.S (n - Datatypes.S k)) by lia.
      rewrite alter_app_r_alt by (rewrite length_replicate; lia).
      rewrite length_replicate, Nat.sub_diag.
      rewrite (replicate_S_end k). cbn [replicate alter list_alter].
      fold uv_attribute. by rewrite <- app_assoc.
    + unfold VertexArray.AddAttribute, VertexArray.with_Attributes.
      cbn [VertexArray.m_Attributes]. rewrite seq_S, app_assoc. reflexivity.
Qed.

Lemma assign_offsets_formats addrs : ∀ table stride,
  VertexArray.format <$> (VertexArray.assign_offsets addrs table stride).1
  = VertexArray.format <$> table.
Proof.
  induction addrs as [|a rest IH]; intros table stride; [done|].
  simpl. destruct (table !! a) as [attr|] eqn:Ha; [|apply IH].
  rewrite IH, list_fmap_insert. apply list_insert_id.
  by rewrite list_lookup_fmap, Ha.
Qed.

Lemma populate_outline column value va :
  outline (VertexArray.populate column value va) = outline va.
Proof.
  unfold outline, VertexArray.populate. destruct va as [? ? ? ? ? [cols|] ?]; [|done].
  simpl. do 2 f_equal.
  apply list_eq. intros i. rewrite !list_lookup_fmap, list_lookup_alter.
  case_decide; [subst|done].
  destruct (cols !! i); [|done]. simpl. by rewrite length_imap.
Qed.

Lemma populate_loop_outline n (value : nat → nat → element) va :
  outline (for_loop n (fun i va => VertexArray.populate i (value i) va) va) = outline va.
Proof.
  induction n as [|n IH]; [done|]. by rewrite for_loop_S, populate_outline.
Qed.

Lemma column_lengths (n v : nat) :
  length <$> ((fun _ : nat => replicate v ([] : element)) <$> seq 0 n) = replicate n v.
Proof.
  generalize 0%nat. induction n as [|n IH]; intros start; [done|].
  cbn. by rewrite length_replicate, IH.
Qed.

(** ** The constructor *)

Lemma ShaderModelDef_new_no_UV OS_WIN mdef w :
  Z.to_nat (GetNumUVsPerVertex mdef) = 0%nat →
  ShaderModelDef_new OS_WIN mdef w = Stop OutOfBounds.
Proof. intros Hn. unfold ShaderModelDef_new. rewrite Hn. reflexivity. Qed.

Lemma ShaderModelDef_new_Ok OS_WIN mdef w :
  1 <= GetNumUVsPerVertex mdef →
  ∃ d uvdata indices,
    ShaderModelDef_new OS_WIN mdef w = Ok (d, after_construction w)
    ∧ VertexArray.format <$> m_UVs d
      = replicate (Z.to_nat (GetNumUVsPerVertex mdef)) R32G32_SFLOAT
    ∧ VertexArray.m_NumberOfVertices (m_Array d) = GetNumVertices mdef
    ∧ VertexArray.m_Attributes (m_Array d) = seq 0 (Z.to_nat (GetNumUVsPerVertex mdef))
    ∧ VertexArray.m_BackingStore (m_Array d) = None
    ∧ VertexArray.m_VB (m_Array d)
      = Some {| VertexArray.vb_buffer := next_buffer w; VertexArray.vb_index := 0;
                VertexArray.vb_data := uvdata; VertexArray.vb_dirty := true;
                VertexArray.vb_prepared := false |}
    ∧ length <$> uvdata
      = replicate (Z.to_nat (GetNumUVsPerVertex mdef)) (Z.to_nat (GetNumVertices mdef))
    ∧ VertexArray.m_NumberOfVertices (VertexIndexArray.base (m_IndexArray d))
      = Platform.size_wrap OS_WIN (GetNumFaces mdef * 3)
    ∧ VertexArray.m_BackingStore (VertexIndexArray.base (m_IndexArray d)) = None
    ∧ VertexArray.m_VB (VertexIndexArray.base (m_IndexArray d))
      = Some {| VertexArray.vb_buffer := S (next_buffer w); VertexArray.vb_index := 0;
                VertexArray.vb_data := [indices]; VertexArray.vb_dirty := true;
                VertexArray.vb_prepared := false |}
    ∧ length indices = Z.to_nat (Platform.size_wrap OS_WIN (GetNumFaces mdef * 3)).
Proof.
  intros Hn. unfold ShaderModelDef_new.
  set (n := Z.to_nat (GetNumUVsPerVertex mdef)).
  assert (1 ≤ n)%nat as Hn' by lia.
  assert (2 <= GetNumUVsPerVertex mdef → (2 ≤ n)%nat) as Hn'' by lia.
  clearbody n.
  rewrite add_uv_attributes by done.
  rewrite Nat.sub_diag. cbn [replicate]. rewrite app_nil_r.
  unfold VertexArray.Layout.
  destruct (VertexArray.assign_offsets _ _ _) as [table stride] eqn:Hlayout.
  pose proof (assign_offsets_formats (rev (seq 0 n)) (replicate n uv_attribute) 0) as Hformats.
  cbn in Hlayout. rewrite Hlayout in Hformats. cbn [fst] in Hformats.
  rewrite fmap_replicate in Hformats.
  cbn [uv_attribute VertexArray.format VertexArray.set_format] in Hformats.
  match goal with |- context [for_loop n ?body ?va0] =>
    pose proof (populate_loop_outline n (UVCoordinates mdef) va0) as Houtline;
    destruct (for_loop n body va0) as [ty us nv ats st bs vb] end.
  unfold outline in Houtline. cbn in Houtline.
  destruct bs as [cols|]; simplify_eq/=.
  match goal with H : length <$> cols = _ |- _ => rename H into Hcols end.
  rewrite column_lengths in Hcols.
  destruct table as [|uv0 table]; [destruct n; [lia|done]|].
  destruct (2 <=? GetNumUVsPerVertex mdef) eqn:Htwo.
  - destruct table as [|uv1 table];
      [apply Z.leb_le, Hn'' in Htwo; destruct n as [|[|?]]; [lia..|done]|].
    eexists _, cols, _. split; [cbn; reflexivity|].
    repeat split; try done. by rewrite length_imap, length_replicate.
  - eexists _, cols, _. split; [cbn; reflexivity|].
    repeat split; try done. by rewrite length_imap, length_replicate.
Qed.

(** ** Claims *)

(** C1.  With the definition of the model holding F faces and V vertices,
    V at least 1, both [size_t] values and F*3 one as well, and with the
    renderer's pointer on a cached [ShaderModelDef], RenderModel returns and
    sends three commands: the instance's dynamic buffer bound to slot 1, the
    index buffer of the cached definition, and one indexed draw of F*3
    indices over the vertex range 0 to V-1.  The draw-call counter moves by 1
    and the triangle counter by F, in [size_t] arithmetic; definitions,
    instance data and the renderer's pointer stay as they were. *)
Theorem RenderModel_draw (OS_WIN : bool) (w : World) (model : CModel) (data : nat)
    (mdef : CModelDef) (shadermodel : ShaderModel)
    (prepared : nat) (pdef : CModelDef) (d : ShaderModelDef) :
  defs w !! m_pModelDef model = Some mdef →
  rdata w !! data = Some shadermodel →
  shadermodeldef (m w) = Some prepared →
  defs w !! prepared = Some pdef →
  GetRenderData (m_addr w) pdef = Some d →
  Platform.is_size_t OS_WIN (GetNumVertices mdef) →
  1 <= GetNumVertices mdef →
  Platform.is_size_t OS_WIN (GetNumFaces mdef) →
  GetNumFaces mdef * 3 <= Platform.SIZE_MAX OS_WIN →
  ∃ w',
    RenderModel OS_WIN model data w = Ok (tt, w')
    ∧ commands w' = commands w ++
        [ SetVertexBuffer 1 (VertexArray.GetBuffer (sm_Array shadermodel))
            (Platform.u32_wrap (VertexArray.GetOffset (sm_Array shadermodel)
               * Platform.u32_wrap (VertexArray.GetStride (sm_Array shadermodel))));
          SetIndexBuffer (VertexIndexArray.GetBuffer (m_IndexArray d));
          DrawIndexedInRange (VertexIndexArray.GetOffset (m_IndexArray d))
            (GetNumFaces mdef * 3) 0 (GetNumVertices mdef - 1) ]
    ∧ m_DrawCalls (stats w') = Platform.size_wrap OS_WIN (m_DrawCalls (stats w) + 1)
    ∧ m_ModelTris (stats w')
      = Platform.size_wrap OS_WIN (m_ModelTris (stats w) + GetNumFaces mdef)
    ∧ defs w' = defs w ∧ rdata w' = rdata w ∧ m w' = m w.
Proof.
  intros Hdef Hdata Hp Hpdef Hd [_ HV] HV1 [HF _] HF3.
  unfold RenderModel, prepared_def. run.
  rewrite Hdef. simpl. rewrite Hdata. simpl. rewrite Hp. simpl.
  rewrite Hpdef. simpl. rewrite Hd. simpl.
  eexists. split; [reflexivity|]. simpl.
  rewrite <- !app_assoc. simpl.
  unfold Platform.size_wrap.
  rewrite (Z.mod_small (GetNumFaces mdef * 3)), (Z.mod_small (GetNumVertices mdef - 1)) by lia.
  done.
Qed.

(** The end-to-end scenario: 4 vertices, 2 faces, 1 UV channel. *)
Lemma RenderModel_draw_witness :
  ∃ w',
    RenderModel false (Scene.model 7) 0 (Scene.prepared_world false 7) = Ok (tt, w')
    ∧ last (commands w') = Some (DrawIndexedInRange 0 6 0 3)
    ∧ m_DrawCalls (stats w') = 1
    ∧ m_ModelTris (stats w') = 2.
Proof.
  edestruct (RenderModel_draw false (Scene.prepared_world false 7) (Scene.model 7) 0%nat)
    as (w' & Hrun & Hcommands & Hcalls & Htris & _);
    [vm_compute; reflexivity ..| | | | |].
  - vm_compute. split; discriminate.
  - vm_compute. discriminate.
  - vm_compute. split; discriminate.
  - vm_compute. discriminate.
  - exists w'. split; [exact Hrun|]. rewrite Hcommands, Hcalls, Htris.
    vm_compute. repeat split.
Defined.

(** C2.  For a definition with V vertices, F faces and at least one UV
    channel (V, F and F*3 being [size_t] values), the constructor returns a
    [ShaderModelDef] whose index array is sized to F*3 and holds F*3 staged
    indices, and whose static array is sized to V, has one attribute of
    format R32G32_SFLOAT for each UV channel and holds V staged entries for
    each channel. *)
Theorem ShaderModelDef_new_sizes (OS_WIN : bool) (mdef : CModelDef) (w : World) :
  1 <= GetNumUVsPerVertex mdef →
  Platform.is_size_t OS_WIN (GetNumVertices mdef) →
  Platform.is_size_t OS_WIN (GetNumFaces mdef) →
  GetNumFaces mdef * 3 <= Platform.SIZE_MAX OS_WIN →
  ∃ d w' ibuffer indices vbuffer uvdata,
    ShaderModelDef_new OS_WIN mdef w = Ok (d, w')
    ∧ VertexArray.m_NumberOfVertices (VertexIndexArray.base (m_IndexArray d))
      = GetNumFaces mdef * 3
    ∧ VertexArray.m_VB (VertexIndexArray.base (m_IndexArray d)) = Some ibuffer
    ∧ VertexArray.vb_data ibuffer = [indices]
    ∧ Z.of_nat (length indices) = GetNumFaces mdef * 3
    ∧ VertexArray.m_NumberOfVertices (m_Array d) = GetNumVertices mdef
    ∧ Z.of_nat (length (m_UVs d)) = GetNumUVsPerVertex mdef
    ∧ Forall (fun uv => VertexArray.format uv = R32G32_SFLOAT) (m_UVs d)
    ∧ Z.of_nat (length (VertexArray.m_Attributes (m_Array d))) = GetNumUVsPerVertex mdef
    ∧ VertexArray.m_VB (m_Array d) = Some vbuffer
    ∧ VertexArray.vb_data vbuffer = uvdata
    ∧ Z.of_nat (length uvdata) = GetNumUVsPerVertex mdef
    ∧ Forall (fun channel => Z.of_nat (length channel) = GetNumVertices mdef) uvdata.
Proof.
  intros HUV [HV _] [HF _] HF3.
  destruct (ShaderModelDef_new_Ok OS_WIN mdef w HUV)
    as (d & uvdata & indices & Hrun & Hformats & Hnv & Hattrs & _ & Hvb & Hcols
        & Hni & _ & Hib & Hindices).
  unfold Platform.size_wrap in Hni, Hindices.
  rewrite Z.mod_small in Hni, Hindices by lia.
  exists d, (after_construction w). eexists _, indices, _, uvdata.
  split; [exact Hrun|]. split; [exact Hni|]. split; [exact Hib|].
  split; [done|]. split; [lia|]. split; [exact Hnv|].
  assert (length (m_UVs d) = Z.to_nat (GetNumUVsPerVertex mdef)) as Hlen.
  { by rewrite <- (length_fmap VertexArray.format), Hformats, length_replicate. }
  split; [lia|]. split.
  { apply Forall_forall. intros uv Huv.
    assert (VertexArray.format uv ∈ VertexArray.format <$> m_UVs d) as Hin
      by (by apply list_elem_of_fmap_2).
    rewrite Hformats in Hin. by apply elem_of_replicate in Hin as [? _]. }
  split; [rewrite Hattrs, length_seq; lia|].
  split; [exact Hvb|]. split; [done|].
  assert (length uvdata = Z.to_nat (GetNumUVsPerVertex mdef)) as Hlen'.
  { by rewrite <- (length_fmap length), Hcols, length_replicate. }
  split; [lia|].
  apply Forall_forall. intros channel Hchannel.
  assert (length channel ∈ length <$> uvdata) as Hin by (by apply list_elem_of_fmap_2).
  rewrite Hcols in Hin. apply elem_of_replicate in Hin as [-> _]. lia.
Qed.

Lemma ShaderModelDef_new_sizes_witness :
  ∃ d w',
    ShaderModelDef_new false Scene.quad Scene.world = Ok (d, w')
    ∧ VertexArray.m_NumberOfVertices (VertexIndexArray.base (m_IndexArray d)) = 6
    ∧ VertexArray.m_NumberOfVertices (m_Array d) = 4
    ∧ length (m_UVs d) = 1%nat.
Proof.
  destruct (ShaderModelDef_new_sizes false Scene.quad Scene.world)
    as (d & w' & ib & indices & vb & uvdata & Hrun & Hni & _ & _ & _ & Hnv & Hlen & _);
    [vm_compute; discriminate
    |vm_compute; split; discriminate
    |vm_compute; split; discriminate
    |vm_compute; discriminate|].
  exists d, w'. split; [exact Hrun|]. split; [exact Hni|]. split; [exact Hnv|].
  change (GetNumUVsPerVertex Scene.quad) with (Z.of_nat 1) in Hlen.
  by apply Nat2Z.inj in Hlen.
Defined.

(** ** The instance layout *)

(** The assertions let exactly the expected layout through. *)
Lemma verify_layout_Ok shadermodel w :
  verify_layout shadermodel w = Ok (tt, w)
  ↔ VertexArray.GetStride (sm_Array shadermodel) = MODEL_VERTEX_ATTRIBUTE_STRIDE
    ∧ VertexArray.offset (m_Position shadermodel) = MODEL_VERTEX_ATTRIBUTE_POSITION_OFFSET
    ∧ VertexArray.offset (m_Normal shadermodel) = MODEL_VERTEX_ATTRIBUTE_NORMAL_OFFSET.
Proof.
  unfold verify_layout, MODEL_VERTEX_ATTRIBUTE_STRIDE,
    MODEL_VERTEX_ATTRIBUTE_POSITION_OFFSET, MODEL_VERTEX_ATTRIBUTE_NORMAL_OFFSET.
  split.
  - run.
    destruct (VertexArray.offset (m_Position shadermodel) mod 16 =? 0); [simpl|done].
    destruct (VertexArray.offset (m_Normal shadermodel) mod 16 =? 0); [simpl|done].
    destruct (VertexArray.GetStride (sm_Array shadermodel) mod 16 =? 0); [simpl|done].
    destruct (VertexArray.GetStride (sm_Array shadermodel) =? 32) eqn:Hs; [simpl|done].
    destruct (VertexArray.offset (m_Position shadermodel) =? 16) eqn:Hp; [simpl|done].
    destruct (VertexArray.offset (m_Normal shadermodel) =? 0) eqn:Hn; [simpl|done].
    intros _. repeat split; by apply Z.eqb_eq.
  - intros (Hs & Hp & Hn). run. by rewrite Hs, Hp, Hn.
Qed.

Lemma CreateModelData_never_asserts OS_WIN key model w :
  CreateModelData OS_WIN key model w ≠ Stop EnsureFailed.
Proof.
  unfold CreateModelData. run.
  destruct (defs w !! m_pModelDef model) as [mdef|]; [simpl|done].
  destruct (GetRenderData (m_addr w) mdef) as [d|]; simpl.
  - done.
  - destruct (Z_le_gt_dec 1 (GetNumUVsPerVertex mdef)) as [HUV|HUV].
    + by destruct (ShaderModelDef_new_Ok OS_WIN mdef w HUV) as (d & ? & ? & -> & _).
    + rewrite ShaderModelDef_new_no_UV by lia. done.
Qed.

(** C10.  The constructor reads [m_UVs[0]] whatever the number of UV
    channels: with none, the vector is empty and the read is out of bounds;
    with one or more the constructor returns. *)
Theorem ShaderModelDef_new_reads_first_UV (OS_WIN : bool) (mdef : CModelDef) (w : World) :
  (GetNumUVsPerVertex mdef = 0 → ShaderModelDef_new OS_WIN mdef w = Stop OutOfBounds)
  ∧ (1 <= GetNumUVsPerVertex mdef →
     ∃ d w', ShaderModelDef_new OS_WIN mdef w = Ok (d, w')).
Proof.
  split.
  - intros HUV. apply ShaderModelDef_new_no_UV. by rewrite HUV.
  - intros HUV. destruct (ShaderModelDef_new_Ok OS_WIN mdef w HUV) as (d & ? & ? & Hrun & _).
    by exists d, (after_construction w).
Qed.

Lemma ShaderModelDef_new_reads_first_UV_witness :
  ShaderModelDef_new false Scene.flat Scene.world = Stop OutOfBounds
  ∧ ∃ d w', ShaderModelDef_new false Scene.quad Scene.world = Ok (d, w').
Proof.
  split.
  - apply (ShaderModelDef_new_reads_first_UV false Scene.flat Scene.world). reflexivity.
  - apply (ShaderModelDef_new_reads_first_UV false Scene.quad Scene.world).
    vm_compute. discriminate.
Defined.

(** ** Creating instance data *)

Lemma CreateModelData_cached OS_WIN key model w mdef d :
  defs w !! m_pModelDef model = Some mdef →
  GetRenderData (m_addr w) mdef = Some d →
  CreateModelData OS_WIN key model w
  = Ok (fresh (dom (rdata w)),
        with_rdata (<[fresh (dom (rdata w)) := build_ShaderModel key mdef]> (rdata w)) w).
Proof.
  intros Hdef Hd. unfold CreateModelData. run. rewrite Hdef. simpl. by rewrite Hd.
Qed.

Lemma CreateModelData_uncached OS_WIN key model w mdef :
  defs w !! m_pModelDef model = Some mdef →
  GetRenderData (m_addr w) mdef = None →
  1 <= GetNumUVsPerVertex mdef →
  ∃ d,
    ShaderModelDef_new OS_WIN mdef w = Ok (d, after_construction w)
    ∧ CreateModelData OS_WIN key model w
      = Ok (fresh (dom (rdata w)),
            with_rdata (<[fresh (dom (rdata w)) := build_ShaderModel key mdef]> (rdata w))
              (with_defs (<[m_pModelDef model := SetRenderData (m_addr w) d mdef]> (defs w))
                 (after_construction w))).
Proof.
  intros Hdef Hd HUV.
  destruct (ShaderModelDef_new_Ok OS_WIN mdef w HUV) as (d & ? & ? & Hnew & _).
  exists d. split; [exact Hnew|].
  unfold CreateModelData. run. rewrite Hdef. simpl. rewrite Hd, Hnew. simpl.
  do 3 f_equal. unfold with_defs. simpl. f_equal.
  apply map_eq. intros a. rewrite lookup_alter, lookup_insert.
  case_decide; [subst; by rewrite Hdef|done].
Qed.

(** What CreateModelData has done when it returns. *)
Lemma CreateModelData_inv OS_WIN key model w data w' :
  CreateModelData OS_WIN key model w = Ok (data, w') →
  ∃ mdef,
    defs w !! m_pModelDef model = Some mdef
    ∧ rdata w !! data = None
    ∧ rdata w' = <[data := build_ShaderModel key mdef]> (rdata w).
Proof.
  intros Hrun.
  destruct (defs w !! m_pModelDef model) as [mdef|] eqn:Hdef;
    [|unfold CreateModelData in Hrun; run_in Hrun; by rewrite Hdef in Hrun].
  exists mdef. split; [done|].
  assert (rdata w !! fresh (dom (rdata w)) = None) as Hfresh
    by (apply not_elem_of_dom, is_fresh).
  destruct (GetRenderData (m_addr w) mdef) as [d|] eqn:Hd.
  - rewrite (CreateModelData_cached _ _ _ _ _ _ Hdef Hd) in Hrun.
    by injection Hrun as <- <-.
  - destruct (Z_le_gt_dec 1 (GetNumUVsPerVertex mdef)) as [HUV|HUV].
    + destruct (CreateModelData_uncached OS_WIN key model w mdef Hdef Hd HUV) as (d & _ & Hrun').
      rewrite Hrun' in Hrun. by injection Hrun as <- <-.
    + unfold CreateModelData in Hrun. run_in Hrun. rewrite Hdef in Hrun. simpl in Hrun.
      rewrite Hd in Hrun. by rewrite ShaderModelDef_new_no_UV in Hrun by lia.
Qed.

(** C3.  CreateModelData never stops on one of its assertions.  For a model
    whose definition is in the world and either is cached already or has at
    least one UV channel, it returns.  Whenever it returns, the address it
    returns was free and now holds the instance of the given key, whose
    dynamic array has the definition's vertex count and the two attributes
    it was given, the position first and the normal second, both
    R32G32B32A32_SFLOAT; laid out by [VertexArray.Layout], the array has
    stride 32, the position lies at offset 16 and the normal at offset 0,
    which is what the six assertions ask for: the three values are multiples
    of 16 and equal the three constants. *)
Theorem CreateModelData_layout (OS_WIN : bool) (key : nat) (model : CModel) (w : World) :
  CreateModelData OS_WIN key model w ≠ Stop EnsureFailed
  ∧ (∀ mdef,
       defs w !! m_pModelDef model = Some mdef →
       is_Some (GetRenderData (m_addr w) mdef) ∨ 1 <= GetNumUVsPerVertex mdef →
       ∃ data w', CreateModelData OS_WIN key model w = Ok (data, w'))
  ∧ (∀ data w',
       CreateModelData OS_WIN key model w = Ok (data, w') →
       ∃ mdef shadermodel,
         defs w !! m_pModelDef model = Some mdef
         ∧ rdata w !! data = None
         ∧ rdata w' !! data = Some shadermodel
         ∧ m_Key shadermodel = key
         ∧ VertexArray.m_NumberOfVertices (sm_Array shadermodel) = GetNumVertices mdef
         ∧ VertexArray.m_Attributes (sm_Array shadermodel) = [addr_Position; addr_Normal]
         ∧ VertexArray.format (m_Position shadermodel) = R32G32B32A32_SFLOAT
         ∧ VertexArray.format (m_Normal shadermodel) = R32G32B32A32_SFLOAT
         ∧ VertexArray.GetStride (sm_Array shadermodel) = 32
         ∧ VertexArray.offset (m_Position shadermodel) = 16
         ∧ VertexArray.offset (m_Normal shadermodel) = 0
         ∧ VertexArray.offset (m_Position shadermodel) mod 16 = 0
         ∧ VertexArray.offset (m_Normal shadermodel) mod 16 = 0
         ∧ VertexArray.GetStride (sm_Array shadermodel) mod 16 = 0
         ∧ VertexArray.GetStride (sm_Array shadermodel) = MODEL_VERTEX_ATTRIBUTE_STRIDE
         ∧ VertexArray.offset (m_Position shadermodel)
           = MODEL_VERTEX_ATTRIBUTE_POSITION_OFFSET
         ∧ VertexArray.offset (m_Normal shadermodel) = MODEL_VERTEX_ATTRIBUTE_NORMAL_OFFSET
         ∧ verify_layout shadermodel w' = Ok (tt, w')).
Proof.
  split; [apply CreateModelData_never_asserts|]. split.
  - intros mdef Hdef [[d Hd]|HUV].
    + eexists _, _. by apply CreateModelData_cached with (d := d).
    + destruct (GetRenderData (m_addr w) mdef) as [d|] eqn:Hd.
      * eexists _, _. by apply CreateModelData_cached with (d := d).
      * destruct (CreateModelData_uncached OS_WIN key model w mdef Hdef Hd HUV)
          as (d & _ & Hrun).
        by eexists _, _.
  - intros data w' Hrun.
    apply CreateModelData_inv in Hrun as (mdef & Hdef & Hfree & Hrdata).
    exists mdef, (build_ShaderModel key mdef).
    split; [exact Hdef|]. split; [exact Hfree|].
    split; [rewrite Hrdata; apply lookup_insert_eq|].
    by repeat split.
Qed.

Lemma CreateModelData_layout_witness :
  ∃ data w' shadermodel,
    CreateModelData false 42 (Scene.model 7) Scene.world = Ok (data, w')
    ∧ rdata w' !! data = Some shadermodel
    ∧ VertexArray.GetStride (sm_Array shadermodel) = 32
    ∧ VertexArray.offset (m_Position shadermodel) = 16
    ∧ VertexArray.offset (m_Normal shadermodel) = 0.
Proof.
  destruct (CreateModelData_layout false 42 (Scene.model 7) Scene.world)
    as (_ & Hreturns & Hbuilt).
  destruct (Hreturns Scene.quad) as (data & w' & Hrun);
    [reflexivity | right; vm_compute; discriminate |].
  destruct (Hbuilt data w' Hrun)
    as (mdef & shadermodel & _ & _ & Hdata & _ & _ & _ & _ & _ & Hstride & Hpos & Hnormal & _).
  by exists data, w', shadermodel.
Defined.

(** What UpdateModelData can change: the instance it is given, and the
    next free buffer handle. *)
Lemma UpdateModelData_frame R model data flags w w' :
  UpdateModelData R model data flags w = Ok (tt, w') →
  ∃ shadermodel',
    rdata w' = <[data := shadermodel']> (rdata w)
    ∧ defs w' = defs w ∧ commands w' = commands w ∧ m w' = m w
    ∧ m_addr w' = m_addr w ∧ stats w' = stats w ∧ constructions w' = constructions w.
Proof.
  unfold UpdateModelData. run.
  destruct (rdata w !! data) as [shadermodel|]; [simpl|done].
  destruct (Z.land flags R =? 0); simpl.
  - intros [= <-]. eexists. by repeat split.
  - unfold Upload.
    repeat case_match; simplify_eq/=; intros [= <-]; eexists; by repeat split.
Qed.

(** C5.  Two instances share a definition that has at least one UV channel
    and no cache entry of this renderer yet.  Both calls of CreateModelData
    return; the constructor of [ShaderModelDef] runs exactly once, in the
    first call, which caches the result on the definition; the second call
    finds it there and leaves definitions and counter alone.  The two
    results are different addresses, each holding its own [ShaderModel], and
    an update of the first leaves the second as it was. *)
Theorem CreateModelData_shares_def (OS_WIN : bool) (w : World) (key1 key2 : nat)
    (model1 model2 : CModel) (mdef : CModelDef) :
  m_pModelDef model1 = m_pModelDef model2 →
  defs w !! m_pModelDef model1 = Some mdef →
  GetRenderData (m_addr w) mdef = None →
  1 <= GetNumUVsPerVertex mdef →
  ∃ data1 w1 data2 w2 d,
    CreateModelData OS_WIN key1 model1 w = Ok (data1, w1)
    ∧ CreateModelData OS_WIN key2 model2 w1 = Ok (data2, w2)
    ∧ constructions w1 = S (constructions w)
    ∧ constructions w2 = S (constructions w)
    ∧ ShaderModelDef_new OS_WIN mdef w = Ok (d, after_construction w)
    ∧ defs w1 !! m_pModelDef model1 ≫= GetRenderData (m_addr w) = Some d
    ∧ defs w2 = defs w1
    ∧ data1 ≠ data2
    ∧ rdata w2 !! data1 = Some (build_ShaderModel key1 mdef)
    ∧ rdata w2 !! data2 = Some (build_ShaderModel key2 mdef)
    ∧ (∀ R model flags w3,
         UpdateModelData R model data1 flags w2 = Ok (tt, w3) →
         rdata w3 !! data2 = Some (build_ShaderModel key2 mdef)).
Proof.
  intros Hshared Hdef Hd HUV.
  destruct (CreateModelData_uncached OS_WIN key1 model1 w mdef Hdef Hd HUV)
    as (d & Hnew & Hfirst).
  set (data1 := fresh (dom (rdata w))) in *.
  set (w1 := with_rdata _ _) in Hfirst.
  assert (defs w1 !! m_pModelDef model2 = Some (SetRenderData (m_addr w) d mdef)) as Hdef1.
  { rewrite <- Hshared. subst w1. simpl. apply lookup_insert_eq. }
  assert (GetRenderData (m_addr w1) (SetRenderData (m_addr w) d mdef) = Some d) as Hd1.
  { subst w1. unfold GetRenderData. simpl. apply lookup_insert_eq. }
  pose proof (CreateModelData_cached OS_WIN key2 model2 w1 _ d Hdef1 Hd1) as Hsecond.
  set (data2 := fresh (dom (rdata w1))) in *.
  assert (data1 ≠ data2) as Hne.
  { intros Heq. apply (is_fresh (dom (rdata w1))). fold data2. rewrite <- Heq.
    subst w1. simpl. rewrite dom_insert. set_solver. }
  exists data1, w1, data2. eexists _, d.
  split; [exact Hfirst|]. split; [exact Hsecond|].
  repeat split; try done.
  - rewrite Hshared, Hdef1. simpl. unfold GetRenderData. simpl. apply lookup_insert_eq.
  - simpl. rewrite lookup_insert_ne by done. apply lookup_insert_eq.
  - simpl. apply lookup_insert_eq.
  - intros R model flags w3 Hupdate.
    apply UpdateModelData_frame in Hupdate as (sm' & -> & _).
    rewrite lookup_insert_ne by done. simpl. apply lookup_insert_eq.
Qed.

Lemma CreateModelData_shares_def_witness :
  ∃ data1 w1 data2 w2,
    CreateModelData false 42 (Scene.model 7) Scene.world = Ok (data1, w1)
    ∧ CreateModelData false 43 (Scene.model 7) w1 = Ok (data2, w2)
    ∧ constructions w2 = 1%nat
    ∧ data1 ≠ data2.
Proof.
  destruct (CreateModelData_shares_def false Scene.world 42 43 (Scene.model 7) (Scene.model 7)
              Scene.quad)
    as (data1 & w1 & data2 & w2 & d & Hfirst & Hsecond & _ & Hcount & _ & _ & _ & Hne & _);
    [reflexivity | reflexivity | reflexivity | vm_compute; discriminate |].
  exists data1, w1, data2, w2. by repeat split.
Defined.

(** ** Updating instance data *)

Lemma imap_values {A B} (f : nat → B) (l : list A) :
  imap (fun j _ => f j) l = f <$> seq 0 (length l).
Proof.
  change f with (f ∘ Nat.add 0) at 1. generalize 0%nat.
  induction l as [|x l IH]; intros k; [done|].
  simpl. f_equal; [by rewrite Nat.add_0_r|].
  rewrite <- IH. apply imap_ext. intros j y _. simpl. f_equal. lia.
Qed.

(** C6.  For instance data at [data]: with the vertices flag unset,
    UpdateModelData returns and changes nothing but the prepared mark of the
    instance's buffer, so the CPU columns, the staged data and the
    pending-transfer mark are the ones of the last upload, and no command is
    sent; with the flag set, on an array with its two columns, every entry
    of the position and normal columns is rebuilt from the model and the
    result is staged again for transfer, and the buffer is prepared too. *)
Theorem UpdateModelData_gate (R : Z) (w : World) (model : CModel) (data : nat)
    (shadermodel : ShaderModel) :
  rdata w !! data = Some shadermodel →
  (∀ flags, Z.land flags R = 0 →
     UpdateModelData R model data flags w
     = Ok (tt, with_rdata
                 (<[data := with_sm_Array
                              (VertexArray.PrepareForRendering (sm_Array shadermodel))
                              shadermodel]> (rdata w)) w)
     ∧ VertexArray.m_BackingStore (VertexArray.PrepareForRendering (sm_Array shadermodel))
       = VertexArray.m_BackingStore (sm_Array shadermodel)
     ∧ (fun c => (VertexArray.vb_buffer c, VertexArray.vb_index c,
                  VertexArray.vb_data c, VertexArray.vb_dirty c))
         <$> VertexArray.m_VB (VertexArray.PrepareForRendering (sm_Array shadermodel))
       = (fun c => (VertexArray.vb_buffer c, VertexArray.vb_index c,
                    VertexArray.vb_data c, VertexArray.vb_dirty c))
           <$> VertexArray.m_VB (sm_Array shadermodel)
     ∧ VertexArray.vb_prepared
         <$> VertexArray.m_VB (VertexArray.PrepareForRendering (sm_Array shadermodel))
       = (fun _ => true) <$> VertexArray.m_VB (sm_Array shadermodel))
  ∧ (∀ flags positions normals,
       Z.land flags R ≠ 0 →
       VertexArray.m_BackingStore (sm_Array shadermodel) = Some [positions; normals] →
       ∃ w' shadermodel' chunk,
         UpdateModelData R model data flags w = Ok (tt, w')
         ∧ rdata w' = <[data := shadermodel']> (rdata w)
         ∧ commands w' = commands w
         ∧ VertexArray.m_BackingStore (sm_Array shadermodel')
           = Some [ (fun j => fst (PositionAndNormal model j)) <$> seq 0 (length positions);
                    (fun j => snd (PositionAndNormal model j)) <$> seq 0 (length normals) ]
         ∧ VertexArray.m_VB (sm_Array shadermodel') = Some chunk
         ∧ Some (VertexArray.vb_data chunk) = VertexArray.m_BackingStore (sm_Array shadermodel')
         ∧ VertexArray.vb_dirty chunk = true
         ∧ VertexArray.vb_prepared chunk = true).
Proof.
  intros Hdata. split.
  - intros flags Hflag. unfold UpdateModelData. run. rewrite Hdata. simpl.
    rewrite Hflag. simpl. split; [done|].
    destruct (VertexArray.m_VB (sm_Array shadermodel)); by repeat split.
  - intros flags positions normals Hflag Hcolumns.
    unfold UpdateModelData. run. rewrite Hdata. simpl.
    apply Z.eqb_neq in Hflag. rewrite Hflag. simpl.
    unfold Upload, VertexArray.Upload, VertexArray.populate. simpl.
    rewrite Hcolumns. simpl. rewrite !imap_values.
    destruct (VertexArray.m_VB (sm_Array shadermodel)) as [c|]; simpl;
      eexists _, _, _; (split; [reflexivity|]); by repeat split.
Qed.

Lemma UpdateModelData_gate_witness :
  (∃ w',
     UpdateModelData Scene.VERTICES (Scene.model 7) 0 0 (Scene.created_world false 7)
     = Ok (tt, w')
     ∧ commands w' = [])
  ∧ (∃ w' shadermodel',
       UpdateModelData Scene.VERTICES (Scene.model 7) 0 2 (Scene.created_world false 7)
       = Ok (tt, w')
       ∧ rdata w' !! 0%nat = Some shadermodel'
       ∧ VertexArray.m_BackingStore (sm_Array shadermodel')
         = Some [ [[0; 0; 0]; [1; 0; 0]; [2; 0; 0]; [3; 0; 0]];
                  [[0; 0; 1]; [0; 0; 1]; [0; 0; 1]; [0; 0; 1]] ]).
Proof.
  destruct (UpdateModelData_gate Scene.VERTICES (Scene.created_world false 7) (Scene.model 7)
              0%nat (build_ShaderModel 42 Scene.quad)) as [Hunset Hset];
    [vm_compute; reflexivity|].
  split.
  - destruct (Hunset 0) as (Hrun & _); [reflexivity|].
    eexists. split; [exact Hrun|]. reflexivity.
  - destruct (Hset 2 (replicate 4 []) (replicate 4 []))
      as (w' & shadermodel' & chunk & Hrun & Hrdata & _ & Hcolumns & _);
      [vm_compute; discriminate | reflexivity |].
    exists w', shadermodel'. split; [exact Hrun|].
    split; [rewrite Hrdata; apply lookup_insert_eq|].
    rewrite Hcolumns. reflexivity.
Defined.

(** ** Uploading *)

Lemma UploadIfNeeded_once va :
  uploads_at_most_once (VertexArray.UploadIfNeeded va).2
  ∧ VertexArray.UploadIfNeeded (VertexArray.UploadIfNeeded va).1
    = ((VertexArray.UploadIfNeeded va).1, [])
  ∧ array_fields (VertexArray.UploadIfNeeded va).1 = array_fields va.
Proof.
  unfold VertexArray.UploadIfNeeded, uploads_at_most_once, array_fields.
  destruct va as [? ? ? ? ? ? [[? ? ? [|] ?]|]]; simpl; repeat split; auto.
Qed.

Lemma UploadModelData_run model data w mdef d shadermodel :
  defs w !! m_pModelDef model = Some mdef →
  GetRenderData (m_addr w) mdef = Some d →
  rdata w !! data = Some shadermodel →
  UploadModelData model data w = Ok (tt, uploaded w model data mdef d shadermodel).
Proof.
  intros Hdef Hd Hdata.
  unfold UploadModelData, UploadIfNeeded_indices, UploadIfNeeded, uploaded, uploaded_def.
  run. rewrite Hdef. simpl. rewrite Hd. simpl.
  destruct (VertexArray.UploadIfNeeded (m_Array d)) as [uv cuv].
  destruct (VertexArray.UploadIfNeeded (VertexIndexArray.base (m_IndexArray d))) as [idx cidx].
  run. rewrite Hdata. simpl.
  destruct (VertexArray.UploadIfNeeded (sm_Array shadermodel)) as [dyn cdyn].
  simpl. unfold with_rdata, with_commands, with_defs. simpl.
  do 3 f_equal; [|by rewrite <- !app_assoc].
  apply map_eq. intros a. rewrite lookup_alter, lookup_insert.
  case_decide; [subst|done]. by rewrite Hdef; simpl; rewrite Hd.
Qed.

Lemma UploadModelData_inv model data w w1 :
  UploadModelData model data w = Ok (tt, w1) →
  ∃ mdef d shadermodel,
    defs w !! m_pModelDef model = Some mdef
    ∧ GetRenderData (m_addr w) mdef = Some d
    ∧ rdata w !! data = Some shadermodel
    ∧ w1 = uploaded w model data mdef d shadermodel.
Proof.
  intros Hrun.
  destruct (defs w !! m_pModelDef model) as [mdef|] eqn:Hdef;
    [|unfold UploadModelData in Hrun; run_in Hrun; by rewrite Hdef in Hrun].
  destruct (GetRenderData (m_addr w) mdef) as [d|] eqn:Hd;
    [|unfold UploadModelData in Hrun; run_in Hrun; rewrite Hdef in Hrun; simpl in Hrun;
      by rewrite Hd in Hrun].
  destruct (rdata w !! data) as [shadermodel|] eqn:Hdata.
  - rewrite (UploadModelData_run _ _ _ _ _ _ Hdef Hd Hdata) in Hrun.
    injection Hrun as <-. by exists mdef, d, shadermodel.
  - unfold UploadModelData, UploadIfNeeded_indices, UploadIfNeeded in Hrun. run_in Hrun.
    rewrite Hdef in Hrun. simpl in Hrun. rewrite Hd in Hrun. simpl in Hrun.
    destruct (VertexArray.UploadIfNeeded (m_Array d)).
    destruct (VertexArray.UploadIfNeeded (VertexIndexArray.base (m_IndexArray d))).
    run_in Hrun. by rewrite Hdata in Hrun.
Qed.

Lemma SetRenderData_again key d d' mdef :
  SetRenderData key d (SetRenderData key d' mdef) = SetRenderData key d mdef.
Proof. unfold SetRenderData. simpl. by rewrite insert_insert_eq. Qed.

(** C4.  For a model whose definition caches a [ShaderModelDef] and for
    instance data of the world, UploadModelData returns, and a second call
    right after it returns too and leaves the world exactly as the first
    call left it: it sends no command, so it transfers nothing.  What the
    first call sent is, in this order, what UploadIfNeeded sends for the
    static UV array, for the index array and for the dynamic array: at most
    one transfer each. *)
Theorem UploadModelData_twice (w : World) (model : CModel) (data : nat)
    (mdef : CModelDef) (d : ShaderModelDef) (shadermodel : ShaderModel) :
  defs w !! m_pModelDef model = Some mdef →
  GetRenderData (m_addr w) mdef = Some d →
  rdata w !! data = Some shadermodel →
  ∃ w1,
    UploadModelData model data w = Ok (tt, w1)
    ∧ UploadModelData model data w1 = Ok (tt, w1)
    ∧ commands w1
      = commands w
        ++ (VertexArray.UploadIfNeeded (m_Array d)).2
        ++ (VertexArray.UploadIfNeeded (VertexIndexArray.base (m_IndexArray d))).2
        ++ (VertexArray.UploadIfNeeded (sm_Array shadermodel)).2
    ∧ uploads_at_most_once (VertexArray.UploadIfNeeded (m_Array d)).2
    ∧ uploads_at_most_once
        (VertexArray.UploadIfNeeded (VertexIndexArray.base (m_IndexArray d))).2
    ∧ uploads_at_most_once (VertexArray.UploadIfNeeded (sm_Array shadermodel)).2.
Proof.
  intros Hdef Hd Hdata.
  exists (uploaded w model data mdef d shadermodel).
  split; [by apply UploadModelData_run|]. split.
  - rewrite (UploadModelData_run model data _
               (SetRenderData (m_addr w) (uploaded_def d) mdef) (uploaded_def d)
               (with_sm_Array (VertexArray.UploadIfNeeded (sm_Array shadermodel)).1 shadermodel)).
    + f_equal. f_equal. unfold uploaded at 1. simpl.
      destruct (UploadIfNeeded_once (sm_Array shadermodel)) as (_ & -> & _).
      destruct (UploadIfNeeded_once (m_Array d)) as (_ & Huv & _).
      destruct (UploadIfNeeded_once (VertexIndexArray.base (m_IndexArray d))) as (_ & Hidx & _).
      rewrite Huv, Hidx. simpl.
      rewrite !app_nil_r, !insert_insert_eq, SetRenderData_again.
      unfold uploaded_def at 1. simpl. rewrite Huv, Hidx. simpl.
      reflexivity.
    + simpl. apply lookup_insert_eq.
    + unfold GetRenderData, SetRenderData. simpl. apply lookup_insert_eq.
    + simpl. apply lookup_insert_eq.
  - split; [reflexivity|]. repeat split; apply UploadIfNeeded_once.
Qed.

Lemma UploadModelData_twice_witness :
  ∃ w1,
    UploadModelData (Scene.model 7) 0 (Scene.updated_world false 7) = Ok (tt, w1)
    ∧ UploadModelData (Scene.model 7) 0 w1 = Ok (tt, w1)
    ∧ length (commands w1) = 3%nat.
Proof.
  edestruct (UploadModelData_twice (Scene.updated_world false 7) (Scene.model 7) 0%nat)
    as (w1 & Hfirst & Hsecond & Hcommands & _); [vm_compute; reflexivity ..|].
  exists w1. split; [exact Hfirst|]. split; [exact Hsecond|].
  rewrite Hcommands. vm_compute. reflexivity.
Defined.

(** ** Preparing and rendering *)

Lemma PrepareModelDef_run def w mdef d :
  defs w !! def = Some mdef →
  GetRenderData (m_addr w) mdef = Some d →
  PrepareModelDef def w
  = Ok (tt, with_commands
              (commands w ++
               [ SetVertexInputLayout (m_VertexInputLayout d);
                 SetVertexBuffer 0 (VertexArray.GetBuffer (m_Array d))
                   (Platform.u32_wrap (VertexArray.GetOffset (m_Array d)
                      * Platform.u32_wrap (VertexArray.GetStride (m_Array d)))) ])
              (with_m {| shadermodeldef := Some def |} w)).
Proof.
  intros Hdef Hd. unfold PrepareModelDef, prepared_def. run.
  rewrite Hdef. simpl. rewrite Hd. simpl. rewrite Hdef. simpl. rewrite Hd. simpl.
  by rewrite <- app_assoc.
Qed.

Lemma PrepareModelDef_null def w mdef :
  defs w !! def = Some mdef →
  GetRenderData (m_addr w) mdef = None →
  PrepareModelDef def w = Stop EnsureFailed.
Proof.
  intros Hdef Hd. unfold PrepareModelDef. run. rewrite Hdef. simpl. by rewrite Hd.
Qed.

Lemma PrepareModelDef_inv def w w1 :
  PrepareModelDef def w = Ok (tt, w1) →
  ∃ mdef d,
    defs w !! def = Some mdef
    ∧ GetRenderData (m_addr w) mdef = Some d
    ∧ defs w1 = defs w ∧ rdata w1 = rdata w ∧ m_addr w1 = m_addr w
    ∧ shadermodeldef (m w1) = Some def.
Proof.
  intros Hrun.
  destruct (defs w !! def) as [mdef|] eqn:Hdef;
    [|unfold PrepareModelDef in Hrun; run_in Hrun; by rewrite Hdef in Hrun].
  destruct (GetRenderData (m_addr w) mdef) as [d|] eqn:Hd;
    [|by rewrite (PrepareModelDef_null _ _ _ Hdef Hd) in Hrun].
  rewrite (PrepareModelDef_run _ _ _ _ Hdef Hd) in Hrun. injection Hrun as <-.
  by exists mdef, d.
Qed.

Lemma UploadModelData_null model data w mdef :
  defs w !! m_pModelDef model = Some mdef →
  GetRenderData (m_addr w) mdef = None →
  UploadModelData model data w = Stop EnsureFailed.
Proof.
  intros Hdef Hd. unfold UploadModelData. run. rewrite Hdef. simpl. by rewrite Hd.
Qed.

(** RenderModel with the renderer's pointer on a cache entry. *)
Lemma RenderModel_run OS_WIN model data w mdef shadermodel prepared pdef d :
  defs w !! m_pModelDef model = Some mdef →
  rdata w !! data = Some shadermodel →
  shadermodeldef (m w) = Some prepared →
  defs w !! prepared = Some pdef →
  GetRenderData (m_addr w) pdef = Some d →
  RenderModel OS_WIN model data w
  = Ok (tt,
        with_stats
          {| m_DrawCalls := Platform.size_wrap OS_WIN (m_DrawCalls (stats w) + 1);
             m_ModelTris := Platform.size_wrap OS_WIN (m_ModelTris (stats w) + GetNumFaces mdef) |}
          (with_commands
             (commands w ++
              [ SetVertexBuffer 1 (VertexArray.GetBuffer (sm_Array shadermodel))
                  (Platform.u32_wrap (VertexArray.GetOffset (sm_Array shadermodel)
                     * Platform.u32_wrap (VertexArray.GetStride (sm_Array shadermodel))));
                SetIndexBuffer (VertexIndexArray.GetBuffer (m_IndexArray d));
                DrawIndexedInRange (VertexIndexArray.GetOffset (m_IndexArray d))
                  (Platform.size_wrap OS_WIN (GetNumFaces mdef * 3)) 0
                  (Platform.size_wrap OS_WIN (GetNumVertices mdef - 1)) ])
             w)).
Proof.
  intros Hdef Hdata Hp Hpdef Hd.
  unfold RenderModel, prepared_def. run.
  rewrite Hdef. simpl. rewrite Hdata. simpl. rewrite Hp. simpl.
  rewrite Hpdef. simpl. rewrite Hd. simpl.
  by rewrite <- !app_assoc.
Qed.

(** RenderModel without a prepared definition. *)
Lemma RenderModel_null OS_WIN model data w mdef shadermodel :
  defs w !! m_pModelDef model = Some mdef →
  rdata w !! data = Some shadermodel →
  shadermodeldef (m w) = None →
  RenderModel OS_WIN model data w = Stop NullDereference.
Proof.
  intros Hdef Hdata Hp. unfold RenderModel, prepared_def. run.
  rewrite Hdef. simpl. rewrite Hdata. simpl. by rewrite Hp.
Qed.

(** Whatever RenderModel does, it never stops on an assertion, and when it
    returns it has touched neither definitions nor instance data. *)
Lemma RenderModel_cases OS_WIN model data w :
  (∃ f, RenderModel OS_WIN model data w = Stop f ∧ f ≠ EnsureFailed)
  ∨ (∃ w', RenderModel OS_WIN model data w = Ok (tt, w')
           ∧ defs w' = defs w ∧ rdata w' = rdata w ∧ m w' = m w ∧ m_addr w' = m_addr w).
Proof.
  destruct (defs w !! m_pModelDef model) as [mdef|] eqn:Hdef;
    [|left; exists DanglingPointer; unfold RenderModel; run; by rewrite Hdef].
  destruct (rdata w !! data) as [shadermodel|] eqn:Hdata;
    [|left; exists DanglingPointer; unfold RenderModel; run; rewrite Hdef; simpl;
      by rewrite Hdata].
  destruct (shadermodeldef (m w)) as [prepared|] eqn:Hp;
    [|left; exists NullDereference; by rewrite (RenderModel_null _ _ _ _ _ _ Hdef Hdata Hp)].
  destruct (defs w !! prepared) as [pdef|] eqn:Hpdef;
    [|left; exists DanglingPointer; unfold RenderModel, prepared_def; run; rewrite Hdef; simpl;
      rewrite Hdata; simpl; rewrite Hp; simpl; by rewrite Hpdef].
  destruct (GetRenderData (m_addr w) pdef) as [d|] eqn:Hd;
    [|left; exists DanglingPointer; unfold RenderModel, prepared_def; run; rewrite Hdef; simpl;
      rewrite Hdata; simpl; rewrite Hp; simpl; rewrite Hpdef; simpl; by rewrite Hd].
  right. eexists. split; [apply (RenderModel_run _ _ _ _ _ _ _ _ _ Hdef Hdata Hp Hpdef Hd)|].
  done.
Qed.

(** C7, as the spec states it, fails: an instance was created, updated and
    uploaded but no definition was prepared, so the renderer's pointer is
    still null; RenderModel dereferences it without any assertion. *)
Lemma RenderModel_unprepared :
  shadermodeldef (m (Scene.uploaded_world false 7)) = None
  ∧ RenderModel false (Scene.model 7) 0 (Scene.uploaded_world false 7)
    = Stop NullDereference.
Proof. split; vm_compute; reflexivity. Qed.

(** C7, amended.  UploadModelData and PrepareModelDef look the cache entry
    up themselves and stop on their assertion when it is null.  RenderModel
    has no assertion: it reads the pointer that the last PrepareModelDef
    stored, and once PrepareModelDef has returned that pointer is non-null
    and leads to the cache entry, so RenderModel returns for every model and
    instance data of the world. *)
Theorem null_def_is_asserted (OS_WIN : bool) (w : World) :
  (∀ model data mdef,
     defs w !! m_pModelDef model = Some mdef →
     GetRenderData (m_addr w) mdef = None →
     UploadModelData model data w = Stop EnsureFailed)
  ∧ (∀ def mdef,
       defs w !! def = Some mdef →
       GetRenderData (m_addr w) mdef = None →
       PrepareModelDef def w = Stop EnsureFailed)
  ∧ (∀ def w1,
       PrepareModelDef def w = Ok (tt, w1) →
       shadermodeldef (m w1) = Some def
       ∧ (∃ d, prepared_def w1 = Ok (d, w1))
       ∧ ∀ model data,
           is_Some (defs w1 !! m_pModelDef model) →
           is_Some (rdata w1 !! data) →
           ∃ w2, RenderModel OS_WIN model data w1 = Ok (tt, w2)).
Proof.
  split; [|split].
  - intros model data mdef. apply UploadModelData_null.
  - intros def mdef. apply PrepareModelDef_null.
  - intros def w1 Hrun.
    apply PrepareModelDef_inv in Hrun as (mdef & d & Hdef & Hd & Hdefs & Hrdata & Haddr & Hp).
    split; [exact Hp|]. split.
    + exists d. unfold prepared_def. run. rewrite Hp. simpl.
      rewrite Hdefs, Hdef. simpl. by rewrite Haddr, Hd.
    + intros model data [mdef' Hdef'] [shadermodel Hdata].
      eexists. eapply RenderModel_run; eauto.
      * by rewrite Hdefs.
      * by rewrite Haddr.
Qed.

Lemma null_def_is_asserted_witness :
  PrepareModelDef 7 Scene.world = Stop EnsureFailed
  ∧ UploadModelData (Scene.model 7) 0 Scene.world = Stop EnsureFailed
  ∧ ∃ w2, RenderModel false (Scene.model 7) 0 (Scene.prepared_world false 7) = Ok (tt, w2).
Proof.
  split; [|split].
  - apply (null_def_is_asserted false Scene.world) with (mdef := Scene.quad); reflexivity.
  - apply (null_def_is_asserted false Scene.world) with (mdef := Scene.quad); reflexivity.
  - destruct (null_def_is_asserted false (Scene.uploaded_world false 7)) as (_ & _ & Hprepared).
    destruct (Hprepared 7%nat (Scene.prepared_world false 7)) as (_ & _ & Hrender);
      [vm_compute; reflexivity|].
    apply Hrender; vm_compute; eauto.
Defined.

(** C8, as the spec states it, fails: for the definition without vertices,
    created, updated, uploaded and prepared without any assertion, RenderModel
    returns and its draw has the upper bound 0 - 1, which is [SIZE_MAX]. *)
Lemma RenderModel_no_vertices :
  GetNumVertices Scene.hollow = 0
  ∧ Scene.prepare_stops false 8 = None
  ∧ ∃ w',
      RenderModel false (Scene.model 8) 0 (Scene.prepared_world false 8) = Ok (tt, w')
      ∧ last (commands w') = Some (DrawIndexedInRange 0 6 0 0xFFFFFFFFFFFFFFFF).
Proof.
  split; [reflexivity|]. split; [vm_compute; reflexivity|].
  eexists. split; vm_compute; reflexivity.
Qed.

(** C8, amended.  No assertion guards the vertex count: RenderModel never
    stops on an assertion, and for a definition without vertices, in a world
    where the model's definition, its instance data and a prepared cache
    entry exist, it returns and the draw it sends last spans the vertex range
    from 0 to 0 - 1 computed in [size_t], which is [SIZE_MAX]. *)
Theorem RenderModel_zero_vertices (OS_WIN : bool) (w : World) (model : CModel) (data : nat) :
  RenderModel OS_WIN model data w ≠ Stop EnsureFailed
  ∧ ∀ mdef shadermodel prepared pdef d,
      defs w !! m_pModelDef model = Some mdef →
      rdata w !! data = Some shadermodel →
      shadermodeldef (m w) = Some prepared →
      defs w !! prepared = Some pdef →
      GetRenderData (m_addr w) pdef = Some d →
      GetNumVertices mdef = 0 →
      ∃ w',
        RenderModel OS_WIN model data w = Ok (tt, w')
        ∧ last (commands w')
          = Some (DrawIndexedInRange (VertexIndexArray.GetOffset (m_IndexArray d))
                    (Platform.size_wrap OS_WIN (GetNumFaces mdef * 3)) 0
                    (Platform.SIZE_MAX OS_WIN)).
Proof.
  split.
  - destruct (RenderModel_cases OS_WIN model data w) as [(f & -> & Hf)|(w' & -> & _)];
      congruence.
  - intros mdef shadermodel prepared pdef d Hdef Hdata Hp Hpdef Hd HV.
    eexists. split; [apply (RenderModel_run _ _ _ _ _ _ _ _ _ Hdef Hdata Hp Hpdef Hd)|].
    simpl. rewrite last_app. simpl. rewrite HV. by destruct OS_WIN.
Qed.

Lemma RenderModel_zero_vertices_witness :
  ∃ w',
    RenderModel true (Scene.model 8) 0 (Scene.prepared_world true 8) = Ok (tt, w')
    ∧ last (commands w') = Some (DrawIndexedInRange 0 6 0 0xFFFFFFFF).
Proof.
  destruct (RenderModel_zero_vertices true (Scene.prepared_world true 8) (Scene.model 8) 0)
    as [_ Hzero].
  edestruct Hzero as (w' & Hrun & Hlast); [vm_compute; reflexivity ..|].
  exists w'. split; [exact Hrun|]. rewrite Hlast. vm_compute. reflexivity.
Defined.

(** ** The cache entry after its construction *)

Lemma cached_fields_same_defs w w' def key :
  defs w' = defs w → cached_fields w' def key = cached_fields w def key.
Proof. unfold cached_fields. by intros ->. Qed.

Lemma def_fields_uploaded d : def_fields (uploaded_def d) = def_fields d.
Proof.
  unfold def_fields, uploaded_def. simpl.
  destruct (UploadIfNeeded_once (m_Array d)) as (_ & _ & ->).
  by destruct (UploadIfNeeded_once (VertexIndexArray.base (m_IndexArray d))) as (_ & _ & ->).
Qed.

Lemma cached_fields_uploaded w model data mdef d shadermodel def key :
  defs w !! m_pModelDef model = Some mdef →
  GetRenderData (m_addr w) mdef = Some d →
  cached_fields (uploaded w model data mdef d shadermodel) def key = cached_fields w def key.
Proof.
  intros Hdef Hd. unfold cached_fields, uploaded. simpl.
  rewrite lookup_insert. case_decide as Hsame; [subst def|done].
  rewrite Hdef. simpl. unfold GetRenderData, SetRenderData. simpl.
  rewrite lookup_insert. case_decide as Hkey; [subst key|done].
  unfold GetRenderData in Hd. rewrite Hd. simpl. by rewrite def_fields_uploaded.
Qed.

Lemma cached_fields_created OS_WIN k model w data w' def key :
  is_Some (cached_fields w def key) →
  CreateModelData OS_WIN k model w = Ok (data, w') →
  cached_fields w' def key = cached_fields w def key.
Proof.
  intros Hcached Hrun.
  destruct (defs w !! m_pModelDef model) as [mdef|] eqn:Hdef;
    [|unfold CreateModelData in Hrun; run_in Hrun; by rewrite Hdef in Hrun].
  destruct (GetRenderData (m_addr w) mdef) as [d|] eqn:Hd.
  - rewrite (CreateModelData_cached _ _ _ _ _ _ Hdef Hd) in Hrun. by injection Hrun as _ <-.
  - destruct (Z_le_gt_dec 1 (GetNumUVsPerVertex mdef)) as [HUV|HUV].
    + destruct (CreateModelData_uncached OS_WIN k model w mdef Hdef Hd HUV) as (d & _ & Hrun').
      rewrite Hrun' in Hrun. injection Hrun as _ <-.
      unfold cached_fields in *. simpl.
      rewrite lookup_insert. case_decide as Hsame; [subst def|done].
      rewrite Hdef in *. simpl in *. unfold GetRenderData, SetRenderData in *. simpl.
      rewrite lookup_insert. case_decide as Hkey; [subst key|done].
      rewrite Hd in Hcached. by destruct Hcached.
    + unfold CreateModelData in Hrun. run_in Hrun. rewrite Hdef in Hrun. simpl in Hrun.
      rewrite Hd in Hrun. by rewrite ShaderModelDef_new_no_UV in Hrun by lia.
Qed.

(** C9.  Take the [ShaderModelDef] that the definition at [def] caches under
    [key], with its fields: size, attribute list, stride and content of the
    index array and of the static UV array, the UV attributes and the vertex
    input layout.  UpdateModelData, UploadModelData, PrepareModelDef and
    RenderModel leave these fields as they are, and so does CreateModelData
    once the entry exists: they are written by the constructor only. *)
Theorem ShaderModelDef_fields_frozen (OS_WIN : bool) (R : Z) (w : World) (def key : nat) :
  (∀ model data flags w',
     UpdateModelData R model data flags w = Ok (tt, w') →
     cached_fields w' def key = cached_fields w def key)
  ∧ (∀ model data w',
       UploadModelData model data w = Ok (tt, w') →
       cached_fields w' def key = cached_fields w def key)
  ∧ (∀ prepared w',
       PrepareModelDef prepared w = Ok (tt, w') →
       cached_fields w' def key = cached_fields w def key)
  ∧ (∀ model data w',
       RenderModel OS_WIN model data w = Ok (tt, w') →
       cached_fields w' def key = cached_fields w def key)
  ∧ (∀ k model data w',
       is_Some (cached_fields w def key) →
       CreateModelData OS_WIN k model w = Ok (data, w') →
       cached_fields w' def key = cached_fields w def key).
Proof.
  repeat split.
  - intros model data flags w' Hrun.
    apply UpdateModelData_frame in Hrun as (_ & _ & Hdefs & _).
    by apply cached_fields_same_defs.
  - intros model data w' Hrun.
    apply UploadModelData_inv in Hrun as (mdef & d & shadermodel & Hdef & Hd & _ & ->).
    by apply cached_fields_uploaded.
  - intros prepared w' Hrun.
    apply PrepareModelDef_inv in Hrun as (_ & _ & _ & _ & Hdefs & _).
    by apply cached_fields_same_defs.
  - intros model data w' Hrun.
    destruct (RenderModel_cases OS_WIN model data w) as [(f & Hstop & _)|(w'' & Hok & Hdefs & _)].
    + by rewrite Hstop in Hrun.
    + rewrite Hok in Hrun. injection Hrun as <-. by apply cached_fields_same_defs.
  - intros k model data w'. apply cached_fields_created.
Qed.

Lemma ShaderModelDef_fields_frozen_witness :
  is_Some (cached_fields (Scene.created_world false 7) 7 1)
  ∧ cached_fields (Scene.uploaded_world false 7) 7 1
    = cached_fields (Scene.created_world false 7) 7 1.
Proof.
  split; [vm_compute; eauto|].
  destruct (ShaderModelDef_fields_frozen false Scene.VERTICES (Scene.created_world false 7) 7 1)
    as (Hupdate & _).
  destruct (ShaderModelDef_fields_frozen false Scene.VERTICES (Scene.updated_world false 7) 7 1)
    as (_ & Hupload & _).
  rewrite (Hupload (Scene.model 7) 0%nat (Scene.uploaded_world false 7))
    by (vm_compute; reflexivity).
  apply (Hupdate (Scene.model 7) 0%nat Scene.VERTICES). vm_compute. reflexivity.
Defined.

(** ** More on the constructor *)

Lemma populate_loop_store (value : nat → nat → element) cols k : ∀ va,
  VertexArray.m_BackingStore va = Some cols →
  VertexArray.m_BackingStore
    (for_loop k (fun i va => VertexArray.populate i (value i) va) va)
  = Some (imap (fun i col => if decide (i < k)%nat
                             then value i <$> seq 0 (length col) else col) cols).
Proof.
  induction k as [|k IH]; intros va Hstore.
  - unfold for_loop. simpl. rewrite Hstore. f_equal.
    apply list_eq. intros i. rewrite list_lookup_imap.
    by destruct (cols !! i).
  - rewrite for_loop_S. unfold VertexArray.populate at 1. simpl.
    rewrite (IH va Hstore). simpl. f_equal.
    apply list_eq. intros i. rewrite list_lookup_alter, !list_lookup_imap.
    case_decide as Hi; [subst i|].
    + destruct (cols !! k) as [col|]; simpl; [|done].
      repeat case_decide; try lia. by rewrite imap_values.
    + destruct (cols !! i) as [col|]; simpl; [|done].
      repeat case_decide; try lia; done.
Qed.

Lemma built_columns (value : nat → nat → element) (n v : nat) :
  imap (fun i col => if decide (i < n)%nat then value i <$> seq 0 (length col) else col)
       ((fun _ : nat => replicate v ([] : element)) <$> seq 0 n)
  = (fun i => value i <$> seq 0 v) <$> seq 0 n.
Proof.
  apply list_eq. intros i. rewrite list_lookup_imap, !list_lookup_fmap.
  destruct (seq 0 n !! i) as [j|] eqn:Hi; simpl; [|done].
  apply lookup_seq in Hi as [-> Hi]. rewrite length_replicate.
  by case_decide; [|lia].
Qed.

(** The definition the constructor returns, field by field. *)
Lemma ShaderModelDef_new_built OS_WIN mdef w :
  1 <= GetNumUVsPerVertex mdef →
  ∃ d uv0,
    ShaderModelDef_new OS_WIN mdef w = Ok (d, after_construction w)
    ∧ VertexArray.format <$> m_UVs d
      = replicate (Z.to_nat (GetNumUVsPerVertex mdef)) R32G32_SFLOAT
    ∧ m_UVs d !! 0%nat = Some uv0
    ∧ m_VertexInputLayout d
      = Some ([ layout_UV UV0 uv0 (Platform.u32_wrap (VertexArray.GetStride (m_Array d)));
                layout_POSITION; layout_NORMAL ]
              ++ (if 2 <=? GetNumUVsPerVertex mdef
                  then match m_UVs d !! 1%nat with
                       | Some uv1 =>
                           [ layout_UV UV1 uv1
                               (Platform.u32_wrap (VertexArray.GetStride (m_Array d))) ]
                       | None => []
                       end
                  else []))
    ∧ array_fields (m_Array d)
      = (VERTEX, [TRANSFER_DST], GetNumVertices mdef,
         seq 0 (Z.to_nat (GetNumUVsPerVertex mdef)),
         VertexArray.m_Stride (m_Array d), None,
         Some (next_buffer w, 0,
               (fun i => UVCoordinates mdef i <$> seq 0 (Z.to_nat (GetNumVertices mdef)))
                 <$> seq 0 (Z.to_nat (GetNumUVsPerVertex mdef)),
               false))
    ∧ is_pending (m_Array d) = true
    ∧ array_fields (VertexIndexArray.base (m_IndexArray d))
      = (INDEX, [TRANSFER_DST], Platform.size_wrap OS_WIN (GetNumFaces mdef * 3), [0%nat], 2,
         None,
         Some (S (next_buffer w), 0,
               [ FaceIndices mdef
                   <$> seq 0 (Z.to_nat (Platform.size_wrap OS_WIN (GetNumFaces mdef * 3))) ],
               false))
    ∧ is_pending (VertexIndexArray.base (m_IndexArray d)) = true.
Proof.
  intros Hn. unfold ShaderModelDef_new.
  set (n := Z.to_nat (GetNumUVsPerVertex mdef)).
  assert (1 ≤ n)%nat as Hn' by lia.
  assert (2 <= GetNumUVsPerVertex mdef → (2 ≤ n)%nat) as Hn'' by lia.
  clearbody n.
  rewrite add_uv_attributes by done.
  rewrite Nat.sub_diag. cbn [replicate]. rewrite app_nil_r.
  unfold VertexArray.Layout.
  destruct (VertexArray.assign_offsets _ _ _) as [table stride] eqn:Hlayout.
  pose proof (assign_offsets_formats (rev (seq 0 n)) (replicate n uv_attribute) 0) as Hformats.
  cbn in Hlayout. rewrite Hlayout in Hformats. cbn [fst] in Hformats.
  rewrite fmap_replicate in Hformats.
  cbn [uv_attribute VertexArray.format VertexArray.set_format] in Hformats.
  match goal with |- context [for_loop n ?body ?va0] =>
    pose proof (populate_loop_outline n (UVCoordinates mdef) va0) as Houtline;
    pose proof (populate_loop_store (UVCoordinates mdef) _ n va0 eq_refl) as Hstore;
    destruct (for_loop n body va0) as [ty us nv ats st bs vb] end.
  unfold outline in Houtline. cbn in Houtline, Hstore.
  rewrite built_columns in Hstore. subst bs. simplify_eq/=.
  destruct table as [|uv0 table]; [destruct n; [lia|done]|].
  destruct (2 <=? GetNumUVsPerVertex mdef) eqn:Htwo.
  - destruct table as [|uv1 table];
      [apply Z.leb_le, Hn'' in Htwo; destruct n as [|[|?]]; [lia..|done]|].
    eexists _, uv0. split; [cbn; reflexivity|].
    repeat split; try done.
    unfold array_fields. simpl. by rewrite imap_values, length_replicate.
  - eexists _, uv0. split; [cbn; reflexivity|].
    repeat split; try done.
    unfold array_fields. simpl. by rewrite imap_values, length_replicate.
Qed.

(** X1.  Whenever the constructor returns, the vertex input layout of the
    definition starts with the entry of UV0 (the first UV attribute, of format
    R32G32_SFLOAT, on slot 0 with the stride of the static array), then the
    fixed entries of position and normal; a fourth entry, for UV1, follows
    exactly when the definition has two or more UV channels.  So the list
    never holds more than the four entries its static vector has room for. *)
Theorem ShaderModelDef_new_vertex_input_layout (OS_WIN : bool) (mdef : CModelDef)
    (w w' : World) (d : ShaderModelDef) :
  ShaderModelDef_new OS_WIN mdef w = Ok (d, w') →
  ∃ layout uv0,
    m_VertexInputLayout d = Some layout
    ∧ m_UVs d !! 0%nat = Some uv0
    ∧ VertexArray.format uv0 = R32G32_SFLOAT
    ∧ take 3 layout
      = [ layout_UV UV0 uv0 (Platform.u32_wrap (VertexArray.GetStride (m_Array d)));
          layout_POSITION; layout_NORMAL ]
    ∧ (GetNumUVsPerVertex mdef < 2 → drop 3 layout = [])
    ∧ (2 <= GetNumUVsPerVertex mdef →
       ∃ uv1, m_UVs d !! 1%nat = Some uv1
              ∧ VertexArray.format uv1 = R32G32_SFLOAT
              ∧ drop 3 layout
                = [ layout_UV UV1 uv1
                      (Platform.u32_wrap (VertexArray.GetStride (m_Array d))) ])
    ∧ (length layout ≤ 4)%nat.
Proof.
  intros Hrun.
  destruct (Z_le_gt_dec 1 (GetNumUVsPerVertex mdef)) as [HUV|HUV];
    [|by rewrite ShaderModelDef_new_no_UV in Hrun by lia].
  destruct (ShaderModelDef_new_built OS_WIN mdef w HUV)
    as (d' & uv0 & Hrun' & Hformats & Huv0 & Hlayout & _).
  rewrite Hrun' in Hrun. injection Hrun as -> <-.
  assert (∀ i uv, m_UVs d !! i = Some uv → VertexArray.format uv = R32G32_SFLOAT) as Hformat.
  { intros i uv Hi.
    assert ((VertexArray.format <$> m_UVs d) !! i = Some (VertexArray.format uv)) as Hi'
      by (by rewrite list_lookup_fmap, Hi).
    rewrite Hformats in Hi'. by apply lookup_replicate in Hi' as [-> _]. }
  eexists _, uv0. split; [exact Hlayout|]. split; [exact Huv0|].
  split; [by apply (Hformat 0%nat)|]. split; [done|].
  destruct (2 <=? GetNumUVsPerVertex mdef) eqn:Htwo.
  - apply Z.leb_le in Htwo.
    assert (is_Some (m_UVs d !! 1%nat)) as [uv1 Huv1].
    { apply lookup_lt_is_Some.
      rewrite <- (length_fmap VertexArray.format), Hformats, length_replicate. lia. }
    rewrite Huv1. split; [lia|]. split; [|simpl; lia].
    intros _. exists uv1. split; [done|]. split; [by apply (Hformat 1%nat)|done].
  - apply Z.leb_gt in Htwo. split; [done|]. split; [lia|simpl; lia].
Qed.

Lemma ShaderModelDef_new_vertex_input_layout_witness :
  ∃ d w',
    ShaderModelDef_new false Stage.tile Stage.world = Ok (d, w')
    ∧ stream <$> default [] (m_VertexInputLayout d) = [UV0; POSITION; NORMAL; UV1]
    ∧ bindingSlot <$> default [] (m_VertexInputLayout d) = [0; 1; 1; 0].
Proof.
  destruct (ShaderModelDef_new false Stage.tile Stage.world) as [[d w']|] eqn:Hrun;
    [|vm_compute in Hrun; discriminate].
  exists d, w'. split; [reflexivity|].
  destruct (ShaderModelDef_new_vertex_input_layout false Stage.tile Stage.world w' d Hrun)
    as (layout & uv0 & Hlayout & _ & _ & Htake & _ & Htwo & _).
  destruct Htwo as (uv1 & _ & _ & Hdrop); [vm_compute; discriminate|].
  rewrite Hlayout. simpl. rewrite <- (take_drop 3 layout), Htake, Hdrop. by split.
Defined.

(** X2.  When CreateModelData constructs the definition's cache entry, the
    instance it returns and the vertex input layout of the entry describe the
    same slot-1 stream: the layout has the position and the normal entry on
    slot 1 and no other, their offsets and stride are those of the instance's
    attributes and array, and both reads (12 bytes each) lie inside one
    32-byte vertex without overlapping. *)
Theorem CreateModelData_layouts_agree (OS_WIN : bool) (key : nat) (model : CModel)
    (w : World) (mdef : CModelDef) :
  defs w !! m_pModelDef model = Some mdef →
  GetRenderData (m_addr w) mdef = None →
  1 <= GetNumUVsPerVertex mdef →
  ∃ data w' shadermodel d layout,
    CreateModelData OS_WIN key model w = Ok (data, w')
    ∧ rdata w' !! data = Some shadermodel
    ∧ defs w' !! m_pModelDef model ≫= GetRenderData (m_addr w') = Some d
    ∧ m_VertexInputLayout d = Some layout
    ∧ filter (fun e => bindingSlot e = 1) layout = [layout_POSITION; layout_NORMAL]
    ∧ soffset layout_POSITION = VertexArray.offset (m_Position shadermodel)
    ∧ soffset layout_NORMAL = VertexArray.offset (m_Normal shadermodel)
    ∧ sstride layout_POSITION = VertexArray.GetStride (sm_Array shadermodel)
    ∧ sstride layout_NORMAL = VertexArray.GetStride (sm_Array shadermodel)
    ∧ soffset layout_NORMAL + VertexArray.GetAttributeSize (sformat layout_NORMAL)
      <= soffset layout_POSITION
    ∧ soffset layout_POSITION + VertexArray.GetAttributeSize (sformat layout_POSITION)
      <= VertexArray.GetStride (sm_Array shadermodel).
Proof.
  intros Hdef Hd HUV.
  destruct (ShaderModelDef_new_built OS_WIN mdef w HUV)
    as (d & uv0 & Hnew & _ & _ & Hlayout & _).
  destruct (CreateModelData_uncached OS_WIN key model w mdef Hdef Hd HUV)
    as (d' & Hnew' & Hrun).
  rewrite Hnew in Hnew'. injection Hnew' as <-.
  eexists _, _, (build_ShaderModel key mdef), d, _.
  split; [exact Hrun|]. split; [simpl; apply lookup_insert_eq|].
  split; [simpl; rewrite lookup_insert_eq; simpl; unfold GetRenderData; simpl;
          apply lookup_insert_eq|].
  split; [exact Hlayout|].
  split; [|by repeat split].
  destruct (2 <=? GetNumUVsPerVertex mdef); [destruct (m_UVs d !! 1%nat)|]; reflexivity.
Qed.

Lemma CreateModelData_layouts_agree_witness :
  ∃ data w' d layout,
    CreateModelData false 42 (Scene.model 9) Stage.world = Ok (data, w')
    ∧ defs w' !! 9%nat ≫= GetRenderData (m_addr w') = Some d
    ∧ m_VertexInputLayout d = Some layout
    ∧ filter (fun e => bindingSlot e = 1) layout = [layout_POSITION; layout_NORMAL].
Proof.
  destruct (CreateModelData_layouts_agree false 42 (Scene.model 9) Stage.world Stage.tile)
    as (data & w' & sm & d & layout & Hrun & _ & Hd & Hlayout & Hslot & _);
    [reflexivity | reflexivity | vm_compute; discriminate |].
  by exists data, w', d, layout.
Defined.

(** ** More on preparing and rendering *)

(** X3.  For a definition that caches a [ShaderModelDef], PrepareModelDef
    returns whatever was prepared before: it sends the vertex input layout of
    the entry and binds its static array to slot 0, in this order and nothing
    else, and leaves the renderer's pointer on the entry; definitions,
    instance data and counters are as before. *)
Theorem PrepareModelDef_binds (w : World) (def : nat) (mdef : CModelDef) (d : ShaderModelDef) :
  defs w !! def = Some mdef →
  GetRenderData (m_addr w) mdef = Some d →
  ∃ w',
    PrepareModelDef def w = Ok (tt, w')
    ∧ commands w' = commands w ++
        [ SetVertexInputLayout (m_VertexInputLayout d);
          SetVertexBuffer 0 (VertexArray.GetBuffer (m_Array d))
            (Platform.u32_wrap (VertexArray.GetOffset (m_Array d)
               * Platform.u32_wrap (VertexArray.GetStride (m_Array d)))) ]
    ∧ shadermodeldef (m w') = Some def
    ∧ prepared_def w' = Ok (d, w')
    ∧ defs w' = defs w ∧ rdata w' = rdata w ∧ stats w' = stats w
    ∧ constructions w' = constructions w ∧ next_buffer w' = next_buffer w.
Proof.
  intros Hdef Hd. eexists. split; [by apply PrepareModelDef_run with (mdef := mdef)|].
  split; [done|]. split; [done|]. split; [|done].
  unfold prepared_def. run. rewrite Hdef. simpl. by rewrite Hd.
Qed.

Lemma PrepareModelDef_binds_witness :
  ∃ w',
    PrepareModelDef 7 (Scene.uploaded_world false 7) = Ok (tt, w')
    ∧ shadermodeldef (m w') = Some 7%nat
    ∧ length (commands w') = (length (commands (Scene.uploaded_world false 7)) + 2)%nat.
Proof.
  edestruct (PrepareModelDef_binds (Scene.uploaded_world false 7) 7)
    as (w' & Hrun & Hcommands & Hp & _); [vm_compute; reflexivity ..|].
  exists w'. split; [exact Hrun|]. split; [exact Hp|].
  rewrite Hcommands, length_app. reflexivity.
Defined.

Lemma size_wrap_add_l OS_WIN x y :
  Platform.size_wrap OS_WIN (Platform.size_wrap OS_WIN x + y) = Platform.size_wrap OS_WIN (x + y).
Proof. unfold Platform.size_wrap. by rewrite Zplus_mod_idemp_l. Qed.

(** X4.  RenderModel leaves the prepared definition in place, so two
    instances can be drawn after one PrepareModelDef: both calls return, each
    binds its own dynamic array to slot 1 and the same index buffer, each
    sends one draw with the counts of its own definition, and the counters
    moved by 2 draw calls and by the faces of both, in [size_t] arithmetic. *)
Theorem RenderModel_twice (OS_WIN : bool) (w : World)
    (model1 model2 : CModel) (data1 data2 : nat) (mdef1 mdef2 : CModelDef)
    (shadermodel1 shadermodel2 : ShaderModel)
    (prepared : nat) (pdef : CModelDef) (d : ShaderModelDef) :
  defs w !! m_pModelDef model1 = Some mdef1 →
  defs w !! m_pModelDef model2 = Some mdef2 →
  rdata w !! data1 = Some shadermodel1 →
  rdata w !! data2 = Some shadermodel2 →
  shadermodeldef (m w) = Some prepared →
  defs w !! prepared = Some pdef →
  GetRenderData (m_addr w) pdef = Some d →
  ∃ w1 w2,
    RenderModel OS_WIN model1 data1 w = Ok (tt, w1)
    ∧ RenderModel OS_WIN model2 data2 w1 = Ok (tt, w2)
    ∧ commands w2 = commands w ++
        [ SetVertexBuffer 1 (VertexArray.GetBuffer (sm_Array shadermodel1))
            (Platform.u32_wrap (VertexArray.GetOffset (sm_Array shadermodel1)
               * Platform.u32_wrap (VertexArray.GetStride (sm_Array shadermodel1))));
          SetIndexBuffer (VertexIndexArray.GetBuffer (m_IndexArray d));
          DrawIndexedInRange (VertexIndexArray.GetOffset (m_IndexArray d))
            (Platform.size_wrap OS_WIN (GetNumFaces mdef1 * 3)) 0
            (Platform.size_wrap OS_WIN (GetNumVertices mdef1 - 1));
          SetVertexBuffer 1 (VertexArray.GetBuffer (sm_Array shadermodel2))
            (Platform.u32_wrap (VertexArray.GetOffset (sm_Array shadermodel2)
               * Platform.u32_wrap (VertexArray.GetStride (sm_Array shadermodel2))));
          SetIndexBuffer (VertexIndexArray.GetBuffer (m_IndexArray d));
          DrawIndexedInRange (VertexIndexArray.GetOffset (m_IndexArray d))
            (Platform.size_wrap OS_WIN (GetNumFaces mdef2 * 3)) 0
            (Platform.size_wrap OS_WIN (GetNumVertices mdef2 - 1)) ]
    ∧ m_DrawCalls (stats w2) = Platform.size_wrap OS_WIN (m_DrawCalls (stats w) + 2)
    ∧ m_ModelTris (stats w2)
      = Platform.size_wrap OS_WIN
          (m_ModelTris (stats w) + GetNumFaces mdef1 + GetNumFaces mdef2)
    ∧ m w2 = m w ∧ defs w2 = defs w ∧ rdata w2 = rdata w.
Proof.
  intros Hdef1 Hdef2 Hdata1 Hdata2 Hp Hpdef Hd.
  eexists _, _.
  split; [apply (RenderModel_run _ _ _ _ _ _ _ _ _ Hdef1 Hdata1 Hp Hpdef Hd)|].
  split; [by apply RenderModel_run with (prepared := prepared) (pdef := pdef)|].
  simpl. rewrite <- !app_assoc, !size_wrap_add_l. simpl.
  repeat split. f_equal. lia.
Qed.

Lemma RenderModel_twice_witness :
  ∃ w1 w2,
    RenderModel false (Scene.model 7) 0 Stage.two_instances = Ok (tt, w1)
    ∧ RenderModel false (Scene.model 7) 1 w1 = Ok (tt, w2)
    ∧ m_DrawCalls (stats w2) = 2
    ∧ m_ModelTris (stats w2) = 4.
Proof.
  edestruct (RenderModel_twice false Stage.two_instances (Scene.model 7) (Scene.model 7)
               0%nat 1%nat)
    as (w1 & w2 & Hfirst & Hsecond & _ & Hcalls & Htris & _); [vm_compute; reflexivity ..|].
  exists w1, w2. split; [exact Hfirst|]. split; [exact Hsecond|].
  rewrite Hcalls, Htris. by vm_compute.
Defined.

(** ** What the operations leave alone *)

(** X5.  When CreateModelData returns, the address it returns was free and
    now holds the instance built for the key; every other instance is
    untouched.  The call sends no command and moves no counter nor the
    renderer's pointer.  On the definitions it changes nothing but the cache
    entry of this renderer on the model's definition, which exists
    afterwards: entries of other renderers and of other definitions, and the
    counts of every definition, are as before. *)
Theorem CreateModelData_frame (OS_WIN : bool) (key : nat) (model : CModel)
    (w : World) (data : nat) (w' : World) :
  CreateModelData OS_WIN key model w = Ok (data, w') →
  ∃ mdef,
    defs w !! m_pModelDef model = Some mdef
    ∧ rdata w !! data = None
    ∧ rdata w' = <[data := build_ShaderModel key mdef]> (rdata w)
    ∧ m_Key (build_ShaderModel key mdef) = key
    ∧ commands w' = commands w ∧ stats w' = stats w
    ∧ m w' = m w ∧ m_addr w' = m_addr w
    ∧ is_Some (defs w' !! m_pModelDef model ≫= GetRenderData (m_addr w))
    ∧ (∀ def' key',
         def' ≠ m_pModelDef model ∨ key' ≠ m_addr w →
         defs w' !! def' ≫= GetRenderData key' = defs w !! def' ≫= GetRenderData key')
    ∧ (∀ def', counts <$> defs w' !! def' = counts <$> defs w !! def').
Proof.
  intros Hrun.
  destruct (defs w !! m_pModelDef model) as [mdef|] eqn:Hdef;
    [|unfold CreateModelData in Hrun; run_in Hrun; by rewrite Hdef in Hrun].
  exists mdef. split; [done|].
  assert (rdata w !! fresh (dom (rdata w)) = None) as Hfresh
    by (apply not_elem_of_dom, is_fresh).
  destruct (GetRenderData (m_addr w) mdef) as [d|] eqn:Hd.
  - rewrite (CreateModelData_cached _ _ _ _ _ _ Hdef Hd) in Hrun. injection Hrun as <- <-.
    repeat split; try done. simpl. rewrite Hdef. simpl. by rewrite Hd.
  - destruct (Z_le_gt_dec 1 (GetNumUVsPerVertex mdef)) as [HUV|HUV].
    + destruct (CreateModelData_uncached OS_WIN key model w mdef Hdef Hd HUV) as (d & _ & Hrun').
      rewrite Hrun' in Hrun. injection Hrun as <- <-.
      repeat split; try done.
      * simpl. rewrite lookup_insert_eq. simpl. unfold GetRenderData. simpl.
        by rewrite lookup_insert_eq.
      * intros def' key' Hother. simpl. rewrite lookup_insert.
        case_decide as Hsame; [subst def'|done].
        rewrite Hdef. simpl. unfold GetRenderData. simpl.
        rewrite lookup_insert_ne; [done|]. by destruct Hother.
      * intros def'. simpl. rewrite lookup_insert.
        case_decide as Hsame; [subst def'|done]. by rewrite Hdef.
    + unfold CreateModelData in Hrun. run_in Hrun. rewrite Hdef in Hrun. simpl in Hrun.
      rewrite Hd in Hrun. by rewrite ShaderModelDef_new_no_UV in Hrun by lia.
Qed.

Lemma CreateModelData_frame_witness :
  ∃ data w',
    CreateModelData false 43 (Scene.model 7) (Scene.created_world false 7) = Ok (data, w')
    ∧ rdata w' !! 0%nat = rdata (Scene.created_world false 7) !! 0%nat
    ∧ commands w' = [].
Proof.
  destruct (CreateModelData false 43 (Scene.model 7) (Scene.created_world false 7))
    as [[data w']|] eqn:Hrun; [|vm_compute in Hrun; discriminate].
  exists data, w'. split; [reflexivity|].
  destruct (CreateModelData_frame false 43 (Scene.model 7) (Scene.created_world false 7)
              data w' Hrun) as (mdef & _ & Hfree & Hrdata & _ & Hcommands & _).
  split; [|by rewrite Hcommands].
  rewrite Hrdata. apply lookup_insert_ne. intros ->. by vm_compute in Hfree.
Defined.

(** The parts of an array that give its layout. *)
Lemma instance_layout_populate column value shadermodel :
  instance_layout (with_sm_Array (VertexArray.populate column value (sm_Array shadermodel))
                     shadermodel)
  = instance_layout shadermodel.
Proof. reflexivity. Qed.

Lemma instance_layout_Upload buffer shadermodel :
  instance_layout (with_sm_Array (VertexArray.Upload buffer (sm_Array shadermodel)) shadermodel)
  = instance_layout shadermodel.
Proof.
  unfold VertexArray.Upload. by destruct (VertexArray.m_BackingStore (sm_Array shadermodel)).
Qed.

Lemma instance_layout_UploadIfNeeded shadermodel :
  instance_layout
    (with_sm_Array (VertexArray.UploadIfNeeded (sm_Array shadermodel)).1 shadermodel)
  = instance_layout shadermodel.
Proof.
  unfold VertexArray.UploadIfNeeded.
  destruct (VertexArray.m_VB (sm_Array shadermodel)) as [[? ? ? [|] ?]|]; reflexivity.
Qed.

(** UpdateModelData on instance data of the world. *)
Lemma UpdateModelData_run R model data flags w shadermodel :
  rdata w !! data = Some shadermodel →
  ∃ shadermodel' w',
    UpdateModelData R model data flags w = Ok (tt, w')
    ∧ rdata w' = <[data := shadermodel']> (rdata w)
    ∧ instance_layout shadermodel' = instance_layout shadermodel
    ∧ defs w' = defs w ∧ commands w' = commands w ∧ m w' = m w
    ∧ m_addr w' = m_addr w ∧ stats w' = stats w ∧ constructions w' = constructions w.
Proof.
  intros Hdata. unfold UpdateModelData. run. rewrite Hdata. simpl.
  destruct (Z.land flags R =? 0); simpl.
  - eexists _, _. split; [reflexivity|]. by repeat split.
  - unfold Upload.
    set (va := VertexArray.populate addr_Normal _ _).
    pose proof (instance_layout_Upload (next_buffer w) (with_sm_Array va shadermodel)) as Hup.
    simpl in Hup.
    destruct (VertexArray.m_VB va), (VertexArray.m_VB (VertexArray.Upload (next_buffer w) va));
      simpl; eexists _, _; (split; [reflexivity|]); repeat split; try done;
      by rewrite <- (instance_layout_populate addr_Position
                       (fun j => (PositionAndNormal model j).1) shadermodel).
Qed.

Lemma UpdateModelData_inv R model data flags w w' :
  UpdateModelData R model data flags w = Ok (tt, w') →
  ∃ shadermodel, rdata w !! data = Some shadermodel.
Proof.
  intros Hrun. destruct (rdata w !! data) as [shadermodel|] eqn:Hdata; [by eexists|].
  unfold UpdateModelData in Hrun. run_in Hrun. by rewrite Hdata in Hrun.
Qed.

(** X6.  When UpdateModelData returns, it has changed the instance it was
    given and nothing else of what the renderer keeps: it sends no command,
    touches no definition and no other instance, and moves neither the
    counters nor the renderer's pointer, whatever the flags. *)
Theorem UpdateModelData_touches_one_instance (R : Z) (model : CModel) (data : nat)
    (flags : Z) (w w' : World) :
  UpdateModelData R model data flags w = Ok (tt, w') →
  is_Some (rdata w !! data)
  ∧ is_Some (rdata w' !! data)
  ∧ (∀ other, other ≠ data → rdata w' !! other = rdata w !! other)
  ∧ commands w' = commands w ∧ defs w' = defs w
  ∧ stats w' = stats w ∧ m w' = m w ∧ constructions w' = constructions w.
Proof.
  intros Hrun.
  destruct (UpdateModelData_inv _ _ _ _ _ _ Hrun) as [shadermodel Hdata].
  destruct (UpdateModelData_run R model data flags w shadermodel Hdata)
    as (shadermodel' & w'' & Hrun' & Hrdata & _ & Hdefs & Hcommands & Hm & _ & Hstats & Hc).
  rewrite Hrun' in Hrun. injection Hrun as <-.
  split; [by eexists|]. split; [rewrite Hrdata, lookup_insert_eq; by eexists|].
  split; [|done]. intros other Hother. rewrite Hrdata. by apply lookup_insert_ne.
Qed.

Lemma UpdateModelData_touches_one_instance_witness :
  ∃ w',
    UpdateModelData Scene.VERTICES (Scene.model 7) 1 Scene.VERTICES Stage.two_instances
    = Ok (tt, w')
    ∧ rdata w' !! 0%nat = rdata Stage.two_instances !! 0%nat
    ∧ commands w' = commands Stage.two_instances.
Proof.
  destruct (UpdateModelData Scene.VERTICES (Scene.model 7) 1 Scene.VERTICES
              Stage.two_instances) as [[[] w']|] eqn:Hrun; [|vm_compute in Hrun; discriminate].
  exists w'. split; [reflexivity|].
  destruct (UpdateModelData_touches_one_instance _ _ _ _ _ _ Hrun)
    as (_ & _ & Hothers & Hcommands & _).
  split; [by apply Hothers|exact Hcommands].
Defined.

(** X7.  The layout that the assertions of CreateModelData validated on an
    instance stays: key, position and normal attributes (formats and
    offsets), and type, usage, size, attribute list and stride of the dynamic
    array of every instance are the same after UpdateModelData,
    UploadModelData, PrepareModelDef and RenderModel, and after CreateModelData
    for the instances that existed. *)
Theorem instance_layout_kept (OS_WIN : bool) (R : Z) (w : World) (p : nat) :
  (∀ model data flags w',
     UpdateModelData R model data flags w = Ok (tt, w') →
     instance_layout <$> rdata w' !! p = instance_layout <$> rdata w !! p)
  ∧ (∀ model data w',
       UploadModelData model data w = Ok (tt, w') →
       instance_layout <$> rdata w' !! p = instance_layout <$> rdata w !! p)
  ∧ (∀ prepared w',
       PrepareModelDef prepared w = Ok (tt, w') →
       instance_layout <$> rdata w' !! p = instance_layout <$> rdata w !! p)
  ∧ (∀ model data w',
       RenderModel OS_WIN model data w = Ok (tt, w') →
       instance_layout <$> rdata w' !! p = instance_layout <$> rdata w !! p)
  ∧ (∀ key model data w',
       is_Some (rdata w !! p) →
       CreateModelData OS_WIN key model w = Ok (data, w') →
       instance_layout <$> rdata w' !! p = instance_layout <$> rdata w !! p).
Proof.
  split; [|split; [|split; [|split]]].
  - intros model data flags w' Hrun.
    destruct (UpdateModelData_inv _ _ _ _ _ _ Hrun) as [shadermodel Hdata].
    destruct (UpdateModelData_run R model data flags w shadermodel Hdata)
      as (shadermodel' & w'' & Hrun' & Hrdata & Hlayout & _).
    rewrite Hrun' in Hrun. injection Hrun as <-. rewrite Hrdata, lookup_insert.
    case_decide; [subst p|done]. by rewrite Hdata; simpl; rewrite Hlayout.
  - intros model data w' Hrun.
    apply UploadModelData_inv in Hrun as (mdef & d & shadermodel & _ & _ & Hdata & ->).
    unfold uploaded. simpl. rewrite lookup_insert.
    case_decide; [subst p|done].
    by rewrite Hdata; simpl; rewrite instance_layout_UploadIfNeeded.
  - intros prepared w' Hrun.
    by apply PrepareModelDef_inv in Hrun as (_ & _ & _ & _ & _ & -> & _).
  - intros model data w' Hrun.
    destruct (RenderModel_cases OS_WIN model data w)
      as [(f & Hstop & _)|(w'' & Hok & _ & Hrdata & _)].
    + by rewrite Hstop in Hrun.
    + rewrite Hok in Hrun. injection Hrun as <-. by rewrite Hrdata.
  - intros key model data w' [shadermodel Hp] Hrun.
    assert (data ≠ p) as Hne.
    { intros ->.
      destruct (defs w !! m_pModelDef model) as [mdef|] eqn:Hdef;
        [|unfold CreateModelData in Hrun; run_in Hrun; by rewrite Hdef in Hrun].
      assert (p = fresh (dom (rdata w))) as Hfresh.
      { destruct (GetRenderData (m_addr w) mdef) as [d|] eqn:Hd.
        - rewrite (CreateModelData_cached _ _ _ _ _ _ Hdef Hd) in Hrun. by injection Hrun.
        - destruct (Z_le_gt_dec 1 (GetNumUVsPerVertex mdef)) as [HUV|HUV].
          + destruct (CreateModelData_uncached OS_WIN key model w mdef Hdef Hd HUV)
              as (d & _ & Hrun').
            rewrite Hrun' in Hrun. by injection Hrun.
          + unfold CreateModelData in Hrun. run_in Hrun. rewrite Hdef in Hrun.
            simpl in Hrun. rewrite Hd in Hrun.
            by rewrite ShaderModelDef_new_no_UV in Hrun by lia. }
      apply (is_fresh (dom (rdata w))). rewrite <- Hfresh. apply elem_of_dom. by eexists. }
    destruct (defs w !! m_pModelDef model) as [mdef|] eqn:Hdef;
      [|unfold CreateModelData in Hrun; run_in Hrun; by rewrite Hdef in Hrun].
    destruct (GetRenderData (m_addr w) mdef) as [d|] eqn:Hd.
    + rewrite (CreateModelData_cached _ _ _ _ _ _ Hdef Hd) in Hrun. injection Hrun as <- <-.
      simpl. by rewrite lookup_insert_ne.
    + destruct (Z_le_gt_dec 1 (GetNumUVsPerVertex mdef)) as [HUV|HUV].
      * destruct (CreateModelData_uncached OS_WIN key model w mdef Hdef Hd HUV)
          as (d & _ & Hrun').
        rewrite Hrun' in Hrun. injection Hrun as <- <-.
        simpl. by rewrite lookup_insert_ne.
      * unfold CreateModelData in Hrun. run_in Hrun. rewrite Hdef in Hrun.
        simpl in Hrun. rewrite Hd in Hrun.
        by rewrite ShaderModelDef_new_no_UV in Hrun by lia.
Qed.

Lemma instance_layout_kept_witness :
  is_Some (rdata (Scene.created_world false 7) !! 0%nat)
  ∧ instance_layout <$> rdata (Scene.uploaded_world false 7) !! 0%nat
    = instance_layout <$> rdata (Scene.created_world false 7) !! 0%nat.
Proof.
  split; [vm_compute; eauto|].
  destruct (instance_layout_kept false Scene.VERTICES (Scene.created_world false 7) 0)
    as (Hupdate & _).
  destruct (instance_layout_kept false Scene.VERTICES (Scene.updated_world false 7) 0)
    as (_ & Hupload & _).
  rewrite (Hupload (Scene.model 7) 0%nat (Scene.uploaded_world false 7))
    by (vm_compute; reflexivity).
  apply (Hupdate (Scene.model 7) 0%nat Scene.VERTICES). vm_compute. reflexivity.
Defined.

(** ** Transfers *)

Lemma UploadIfNeeded_quiet va :
  is_pending va = false →
  VertexArray.UploadIfNeeded va = (va, []).
Proof.
  unfold is_pending, VertexArray.UploadIfNeeded.
  by destruct (VertexArray.m_VB va) as [[? ? ? [|] ?]|].
Qed.

Lemma UploadIfNeeded_sends va c :
  VertexArray.m_VB va = Some c →
  VertexArray.vb_dirty c = true →
  (VertexArray.UploadIfNeeded va).2
  = [UploadBuffer (VertexArray.vb_buffer c) (VertexArray.vb_data c)].
Proof. unfold VertexArray.UploadIfNeeded. by intros -> ->. Qed.

Lemma UploadIfNeeded_binding va :
  VertexArray.GetBuffer (VertexArray.UploadIfNeeded va).1 = VertexArray.GetBuffer va
  ∧ VertexArray.GetOffset (VertexArray.UploadIfNeeded va).1 = VertexArray.GetOffset va
  ∧ VertexArray.GetStride (VertexArray.UploadIfNeeded va).1 = VertexArray.GetStride va.
Proof.
  unfold VertexArray.UploadIfNeeded, VertexArray.GetBuffer, VertexArray.GetOffset.
  destruct va as [? ? ? ? ? ? [[? ? ? [|] ?]|]]; by repeat split.
Qed.

Lemma uploaded_def_quiet d :
  is_pending (m_Array d) = false →
  is_pending (VertexIndexArray.base (m_IndexArray d)) = false →
  uploaded_def d = d.
Proof.
  intros Huv Hidx. unfold uploaded_def.
  rewrite (UploadIfNeeded_quiet _ Huv), (UploadIfNeeded_quiet _ Hidx).
  by destruct d as [[] ? ? ?].
Qed.

(** X8.  UploadModelData, when it returns, has sent transfers only, three at
    most: it binds nothing and draws nothing.  It moves no counter, hands out
    no buffer, leaves the renderer's pointer, every other instance, the
    counts of every definition and the cache entries of other renderers and
    other definitions as they were. *)
Theorem UploadModelData_only_transfers (model : CModel) (data : nat) (w w' : World) :
  UploadModelData model data w = Ok (tt, w') →
  (∃ sent,
     commands w' = commands w ++ sent
     ∧ Forall (fun c => is_upload c = true) sent
     ∧ (length sent ≤ 3)%nat)
  ∧ stats w' = stats w ∧ m w' = m w ∧ m_addr w' = m_addr w
  ∧ constructions w' = constructions w ∧ next_buffer w' = next_buffer w
  ∧ (∀ other, other ≠ data → rdata w' !! other = rdata w !! other)
  ∧ (∀ def', counts <$> defs w' !! def' = counts <$> defs w !! def')
  ∧ (∀ def' key',
       def' ≠ m_pModelDef model ∨ key' ≠ m_addr w →
       defs w' !! def' ≫= GetRenderData key' = defs w !! def' ≫= GetRenderData key').
Proof.
  intros Hrun.
  apply UploadModelData_inv in Hrun as (mdef & d & shadermodel & Hdef & Hd & Hdata & ->).
  split.
  { eexists. split; [reflexivity|].
    destruct (UploadIfNeeded_once (m_Array d)) as ([Huv1 Huv2] & _).
    destruct (UploadIfNeeded_once (VertexIndexArray.base (m_IndexArray d)))
      as ([Hidx1 Hidx2] & _).
    destruct (UploadIfNeeded_once (sm_Array shadermodel)) as ([Hdyn1 Hdyn2] & _).
    split; [by repeat apply Forall_app_2|]. rewrite !length_app. lia. }
  repeat split; try done.
  - intros other Hother. simpl. by apply lookup_insert_ne.
  - intros def'. simpl. rewrite lookup_insert.
    case_decide; [subst def'|done]. by rewrite Hdef.
  - intros def' key' Hother. simpl. rewrite lookup_insert.
    case_decide as Hsame; [subst def'|done].
    rewrite Hdef. simpl. unfold GetRenderData. simpl.
    rewrite lookup_insert_ne; [done|]. by destruct Hother.
Qed.

Lemma UploadModelData_only_transfers_witness :
  ∃ w',
    UploadModelData (Scene.model 7) 0 (Scene.updated_world false 7) = Ok (tt, w')
    ∧ stats w' = stats (Scene.updated_world false 7)
    ∧ m w' = m (Scene.updated_world false 7).
Proof.
  destruct (UploadModelData (Scene.model 7) 0 (Scene.updated_world false 7))
    as [[[] w']|] eqn:Hrun; [|vm_compute in Hrun; discriminate].
  exists w'. split; [reflexivity|].
  by destruct (UploadModelData_only_transfers _ _ _ _ Hrun) as (_ & Hstats & Hm & _).
Defined.

Lemma is_pending_PrepareForRendering va :
  is_pending (VertexArray.PrepareForRendering va) = is_pending va.
Proof. unfold is_pending. simpl. by destruct (VertexArray.m_VB va). Qed.

(** X9.  A model that did not change costs no transfer: with nothing
    pending on the static array, the index array and the instance's dynamic
    array, UpdateModelData without the vertices flag followed by
    UploadModelData returns and sends no command at all. *)
Theorem unchanged_instance_sends_nothing (R : Z) (w : World) (model : CModel) (data : nat)
    (mdef : CModelDef) (d : ShaderModelDef) (shadermodel : ShaderModel) (flags : Z) :
  defs w !! m_pModelDef model = Some mdef →
  GetRenderData (m_addr w) mdef = Some d →
  rdata w !! data = Some shadermodel →
  is_pending (m_Array d) = false →
  is_pending (VertexIndexArray.base (m_IndexArray d)) = false →
  is_pending (sm_Array shadermodel) = false →
  Z.land flags R = 0 →
  ∃ w',
    (UpdateModelData R model data flags;; UploadModelData model data) w = Ok (tt, w')
    ∧ commands w' = commands w
    ∧ defs w' !! m_pModelDef model ≫= GetRenderData (m_addr w) = Some d
    ∧ next_buffer w' = next_buffer w.
Proof.
  intros Hdef Hd Hdata Huv Hidx Hdyn Hflag.
  unfold UpdateModelData. run. rewrite Hdata. simpl. rewrite Hflag. simpl.
  erewrite UploadModelData_run; [|exact Hdef|exact Hd|simpl; apply lookup_insert_eq].
  eexists. split; [reflexivity|].
  unfold uploaded. simpl.
  rewrite (uploaded_def_quiet d Huv Hidx).
  rewrite (UploadIfNeeded_quiet _ Huv), (UploadIfNeeded_quiet _ Hidx).
  rewrite UploadIfNeeded_quiet by (by rewrite is_pending_PrepareForRendering).
  simpl. rewrite !app_nil_r. split; [done|]. split; [|done].
  rewrite lookup_insert_eq. simpl. unfold GetRenderData. simpl. apply lookup_insert_eq.
Qed.

Lemma unchanged_instance_sends_nothing_witness :
  ∃ w',
    (UpdateModelData Scene.VERTICES (Scene.model 7) 0 0;; UploadModelData (Scene.model 7) 0)
      (Scene.uploaded_world false 7) = Ok (tt, w')
    ∧ commands w' = commands (Scene.uploaded_world false 7).
Proof.
  pose proof (fun mdef d sm =>
    unchanged_instance_sends_nothing Scene.VERTICES (Scene.uploaded_world false 7)
      (Scene.model 7) 0%nat mdef d sm 0) as Hquiet.
  edestruct Hquiet as (w' & Hrun & Hcommands & _); [vm_compute; reflexivity ..|].
  by exists w'.
Defined.

(** X10.  One modification, one transfer: with nothing pending on the two
    arrays of the definition, UpdateModelData with the vertices flag followed
    by UploadModelData returns and sends exactly one command, the transfer of
    the instance's buffer with the rebuilt position and normal columns. *)
Theorem changed_instance_sends_once (R : Z) (w : World) (model : CModel) (data : nat)
    (mdef : CModelDef) (d : ShaderModelDef) (shadermodel : ShaderModel) (flags : Z)
    (positions normals : list element) :
  defs w !! m_pModelDef model = Some mdef →
  GetRenderData (m_addr w) mdef = Some d →
  rdata w !! data = Some shadermodel →
  is_pending (m_Array d) = false →
  is_pending (VertexIndexArray.base (m_IndexArray d)) = false →
  VertexArray.m_BackingStore (sm_Array shadermodel) = Some [positions; normals] →
  Z.land flags R ≠ 0 →
  ∃ w' shadermodel',
    (UpdateModelData R model data flags;; UploadModelData model data) w = Ok (tt, w')
    ∧ commands w' = commands w ++
        [ UploadBuffer
            (from_option VertexArray.vb_buffer (next_buffer w) (VertexArray.m_VB (sm_Array shadermodel)))
            [ (fun j => fst (PositionAndNormal model j)) <$> seq 0 (length positions);
              (fun j => snd (PositionAndNormal model j)) <$> seq 0 (length normals) ] ]
    ∧ rdata w' !! data = Some shadermodel'
    ∧ is_pending (sm_Array shadermodel') = false.
Proof.
  intros Hdef Hd Hdata Huv Hidx Hcolumns Hflag.
  unfold UpdateModelData. run. rewrite Hdata. simpl.
  apply Z.eqb_neq in Hflag. rewrite Hflag. simpl.
  unfold Upload, VertexArray.Upload, VertexArray.populate. simpl.
  rewrite Hcolumns. simpl. rewrite !imap_values.
  destruct (VertexArray.m_VB (sm_Array shadermodel)) as [c|]; simpl;
    (erewrite UploadModelData_run; [|exact Hdef|exact Hd|simpl; apply lookup_insert_eq]);
    eexists _, _; (split; [reflexivity|]);
    unfold uploaded; simpl;
    rewrite (UploadIfNeeded_quiet _ Huv), (UploadIfNeeded_quiet _ Hidx); simpl;
    (split; [done|]); (split; [apply lookup_insert_eq|done]).
Qed.

Lemma changed_instance_sends_once_witness :
  ∃ w',
    (UpdateModelData Scene.VERTICES (Scene.model 7) 0 2;; UploadModelData (Scene.model 7) 0)
      (Scene.uploaded_world false 7) = Ok (tt, w')
    ∧ length (commands w') = S (length (commands (Scene.uploaded_world false 7))).
Proof.
  pose proof (fun mdef d sm =>
    changed_instance_sends_once Scene.VERTICES (Scene.uploaded_world false 7)
      (Scene.model 7) 0%nat mdef d sm 2) as Hsend.
  edestruct Hsend as (w' & sm' & Hrun & Hcommands & _);
    [vm_compute; reflexivity ..| vm_compute; discriminate |].
  exists w'. split; [exact Hrun|]. rewrite Hcommands, length_app. simpl. lia.
Defined.

(** X11.  Only the vertices flag counts: flags that share no bit with it can
    be or-ed in without changing what UpdateModelData does. *)
Theorem UpdateModelData_ignores_other_flags (R : Z) (model : CModel) (data : nat)
    (flags other : Z) (w : World) :
  Z.land other R = 0 →
  UpdateModelData R model data (Z.lor flags other) w = UpdateModelData R model data flags w.
Proof.
  intros Hother. unfold UpdateModelData.
  by rewrite Z.land_lor_distr_l, Hother, Z.lor_0_r.
Qed.

Lemma UpdateModelData_ignores_other_flags_witness :
  UpdateModelData Scene.VERTICES (Scene.model 7) 0 (Z.lor 2 5) (Scene.created_world false 7)
  = UpdateModelData Scene.VERTICES (Scene.model 7) 0 2 (Scene.created_world false 7).
Proof. apply UpdateModelData_ignores_other_flags. reflexivity. Defined.

(** ** A whole frame *)

Lemma bind_Ok {A B} (c : M A) (k : A → M B) w a w1 :
  c w = Ok (a, w1) → (c ≫= k) w = k a w1.
Proof. intros Hc. unfold mbind, M_bind, bind. by rewrite Hc. Qed.

Lemma array_fields_chunk va ty us n ats st bs b i data p :
  array_fields va = (ty, us, n, ats, st, bs, Some (b, i, data, p)) →
  is_pending va = true →
  VertexArray.m_VB va
  = Some {| VertexArray.vb_buffer := b; VertexArray.vb_index := i;
            VertexArray.vb_data := data; VertexArray.vb_dirty := true;
            VertexArray.vb_prepared := p |}.
Proof.
  unfold array_fields, is_pending.
  destruct va as [? ? ? ? ? ? [[? ? ? ? ?]|]]; simpl; [|done].
  by intros [= -> -> -> -> -> -> -> -> -> ->] ->.
Qed.

(** The first update of an instance that CreateModelData has just built. *)
Lemma UpdateModelData_first R model data flags w key mdef :
  rdata w !! data = Some (build_ShaderModel key mdef) →
  Z.land flags R ≠ 0 →
  ∃ shadermodel' w',
    UpdateModelData R model data flags w = Ok (tt, w')
    ∧ rdata w' = <[data := shadermodel']> (rdata w)
    ∧ VertexArray.m_VB (sm_Array shadermodel')
      = Some {| VertexArray.vb_buffer := next_buffer w; VertexArray.vb_index := 0;
                VertexArray.vb_data :=
                  [ (fun j => fst (PositionAndNormal model j))
                      <$> seq 0 (Z.to_nat (GetNumVertices mdef));
                    (fun j => snd (PositionAndNormal model j))
                      <$> seq 0 (Z.to_nat (GetNumVertices mdef)) ];
                VertexArray.vb_dirty := true; VertexArray.vb_prepared := true |}
    ∧ VertexArray.GetStride (sm_Array shadermodel') = 32
    ∧ defs w' = defs w ∧ commands w' = commands w ∧ m w' = m w
    ∧ m_addr w' = m_addr w ∧ stats w' = stats w ∧ constructions w' = constructions w.
Proof.
  intros Hdata Hflag. unfold UpdateModelData. run. rewrite Hdata. simpl.
  apply Z.eqb_neq in Hflag. rewrite Hflag. simpl.
  eexists _, _. split; [reflexivity|]. simpl. split; [reflexivity|].
  unfold VertexArray.Upload, VertexArray.populate. simpl.
  rewrite !imap_values, !length_replicate. by repeat split.
Qed.

(** X12.  The first frame of an instance whose definition (at least one UV
    channel) is not cached yet, with the vertices flag set: create, update,
    upload, prepare and render all return, and the device receives, in this
    order, the transfers of the static UV data, of the indices and of the
    rebuilt positions and normals, each to a buffer of its own, then the
    vertex input layout, the static buffer on slot 0, the instance's buffer
    on slot 1, the index buffer, and one draw of F*3 indices over the
    vertices 0 to V-1 (both in [size_t] arithmetic).  One construction and
    one draw call were counted. *)
Theorem first_frame (OS_WIN : bool) (R : Z) (key : nat) (model : CModel) (flags : Z)
    (w : World) (mdef : CModelDef) :
  defs w !! m_pModelDef model = Some mdef →
  GetRenderData (m_addr w) mdef = None →
  1 <= GetNumUVsPerVertex mdef →
  Z.land flags R ≠ 0 →
  ∃ data w' layout,
    frame OS_WIN R key model flags w = Ok (data, w')
    ∧ commands w' = commands w ++
        [ UploadBuffer (next_buffer w)
            ((fun i => UVCoordinates mdef i <$> seq 0 (Z.to_nat (GetNumVertices mdef)))
               <$> seq 0 (Z.to_nat (GetNumUVsPerVertex mdef)));
          UploadBuffer (S (next_buffer w))
            [ FaceIndices mdef
                <$> seq 0 (Z.to_nat (Platform.size_wrap OS_WIN (GetNumFaces mdef * 3))) ];
          UploadBuffer (S (S (next_buffer w)))
            [ (fun j => fst (PositionAndNormal model j))
                <$> seq 0 (Z.to_nat (GetNumVertices mdef));
              (fun j => snd (PositionAndNormal model j))
                <$> seq 0 (Z.to_nat (GetNumVertices mdef)) ];
          SetVertexInputLayout (Some layout);
          SetVertexBuffer 0 (Some (next_buffer w)) 0;
          SetVertexBuffer 1 (Some (S (S (next_buffer w)))) 0;
          SetIndexBuffer (Some (S (next_buffer w)));
          DrawIndexedInRange 0 (Platform.size_wrap OS_WIN (GetNumFaces mdef * 3)) 0
            (Platform.size_wrap OS_WIN (GetNumVertices mdef - 1)) ]
    ∧ (∃ d, defs w' !! m_pModelDef model ≫= GetRenderData (m_addr w) = Some d
            ∧ m_VertexInputLayout d = Some layout)
    ∧ constructions w' = S (constructions w)
    ∧ m_DrawCalls (stats w') = Platform.size_wrap OS_WIN (m_DrawCalls (stats w) + 1)
    ∧ m_ModelTris (stats w')
      = Platform.size_wrap OS_WIN (m_ModelTris (stats w) + GetNumFaces mdef)
    ∧ shadermodeldef (m w') = Some (m_pModelDef model).
Proof.
  intros Hdef Hd HUV Hflag.
  destruct (ShaderModelDef_new_built OS_WIN mdef w HUV)
    as (d & uv0 & Hnew & _ & _ & Hlayout & Huv & Huvp & Hidx & Hidxp).
  destruct (CreateModelData_uncached OS_WIN key model w mdef Hdef Hd HUV)
    as (d' & Hnew' & Hcreate).
  rewrite Hnew in Hnew'. injection Hnew' as <-.
  apply array_fields_chunk in Huv; [|exact Huvp].
  apply array_fields_chunk in Hidx; [|exact Hidxp].
  unfold frame. rewrite (bind_Ok _ _ _ _ _ Hcreate).
  set (data := fresh (dom (rdata w))).
  set (mdef1 := SetRenderData (m_addr w) d mdef).
  match goal with |- context [UpdateModelData R model data flags ≫= _] =>
    match goal with |- ∃ _ _ _, _ ?w1 = _ ∧ _ => set (world1 := w1) end end.
  destruct (UpdateModelData_first R model data flags world1 key mdef)
    as (sm2 & w2 & Hupdate & Hrdata2 & Hvb2 & Hstride2 & Hdefs2 & Hcommands2 & Hm2 & Haddr2
        & Hstats2 & Hconstructions2);
    [apply lookup_insert_eq|exact Hflag|].
  rewrite (bind_Ok _ _ _ _ _ Hupdate).
  assert (defs w2 !! m_pModelDef model = Some mdef1) as Hdef2
    by (rewrite Hdefs2; apply lookup_insert_eq).
  assert (GetRenderData (m_addr w2) mdef1 = Some d) as Hd2
    by (rewrite Haddr2; apply lookup_insert_eq).
  assert (rdata w2 !! data = Some sm2) as Hdata2
    by (rewrite Hrdata2; apply lookup_insert_eq).
  rewrite (bind_Ok _ _ _ _ _ (UploadModelData_run model data w2 mdef1 d sm2 Hdef2 Hd2 Hdata2)).
  set (w3 := uploaded w2 model data mdef1 d sm2).
  set (mdef3 := SetRenderData (m_addr w2) (uploaded_def d) mdef1).
  assert (defs w3 !! m_pModelDef model = Some mdef3) as Hdef3 by apply lookup_insert_eq.
  assert (GetRenderData (m_addr w3) mdef3 = Some (uploaded_def d)) as Hd3
    by apply lookup_insert_eq.
  rewrite (bind_Ok _ _ _ _ _ (PrepareModelDef_run _ w3 mdef3 _ Hdef3 Hd3)).
  match goal with |- ∃ _ _ _, (_ ≫= _) ?w4 = _ ∧ _ => set (world4 := w4) end.
  rewrite (bind_Ok _ _ _ _ _
             (RenderModel_run OS_WIN model data world4 mdef3
                (with_sm_Array (VertexArray.UploadIfNeeded (sm_Array sm2)).1 sm2)
                (m_pModelDef model) mdef3 (uploaded_def d)
                Hdef3 (lookup_insert_eq _ _ _) eq_refl Hdef3 Hd3)).
  eexists data, _, _. split; [reflexivity|].
  destruct (UploadIfNeeded_binding (m_Array d)) as (Hb0 & Ho0 & Hs0).
  destruct (UploadIfNeeded_binding (VertexIndexArray.base (m_IndexArray d))) as (Hbi & Hoi & _).
  destruct (UploadIfNeeded_binding (sm_Array sm2)) as (Hb1 & Ho1 & Hs1).
  simpl.
  unfold VertexIndexArray.GetBuffer, VertexIndexArray.GetOffset. simpl.
  rewrite Hb0, Ho0, Hs0, Hbi, Hoi, Hb1, Ho1, Hs1.
  rewrite (UploadIfNeeded_sends _ _ Huv eq_refl), (UploadIfNeeded_sends _ _ Hidx eq_refl),
    (UploadIfNeeded_sends _ _ Hvb2 eq_refl).
  unfold VertexArray.GetBuffer, VertexArray.GetOffset. rewrite Huv, Hidx, Hvb2. simpl.
  rewrite Hcommands2, Hstats2, Hconstructions2, Hlayout. subst world1. simpl.
  rewrite <- !app_assoc. simpl.
  split; [reflexivity|]. split; [|done].
  exists (uploaded_def d). split; [|exact Hlayout].
  rewrite lookup_insert_eq. simpl. rewrite Haddr2. apply lookup_insert_eq.
Qed.

Lemma first_frame_witness :
  ∃ data w',
    frame false Scene.VERTICES 42 (Scene.model 7) 2 Scene.world = Ok (data, w')
    ∧ length (commands w') = 8%nat
    ∧ last (commands w') = Some (DrawIndexedInRange 0 6 0 3).
Proof.
  destruct (first_frame false Scene.VERTICES 42 (Scene.model 7) 2 Scene.world Scene.quad)
    as (data & w' & layout & Hrun & Hcommands & _);
    [reflexivity | reflexivity | vm_compute; discriminate | vm_compute; discriminate |].
  exists data, w'. split; [exact Hrun|]. rewrite Hcommands. by vm_compute.
Defined.

(** ** The limits of wposix_types.h *)

(** X13.  [INT16_MIN] and [INT16_MAX] are the least and the greatest value
    of [int16_t], so they bound exactly its values.  [UINT16_MAX] is not the
    greatest value of [uint16_t]: it is one more, no [uint16_t] value reaches
    it, and converting it to [uint16_t] gives [UINT16_MIN]. *)
Theorem wposix_16_bit_limits :
  (∀ x, Wposix.is_int16_t x ↔ Wposix.INT16_MIN <= x <= Wposix.INT16_MAX)
  ∧ (∀ x, Wposix.is_uint16_t x ↔ Wposix.UINT16_MIN <= x < Wposix.UINT16_MAX)
  ∧ ¬ Wposix.is_uint16_t Wposix.UINT16_MAX
  ∧ Wposix.to_uint16_t Wposix.UINT16_MAX = Wposix.UINT16_MIN
  ∧ Wposix.is_uint16_t (Wposix.UINT16_MAX - 1).
Proof.
  unfold Wposix.is_int16_t, Wposix.is_uint16_t, Wposix.INT16_MIN, Wposix.INT16_MAX,
    Wposix.UINT16_MIN, Wposix.UINT16_MAX, Wposix.to_uint16_t.
  repeat split; lia.
Qed.
